(** * yara_scanner.py: the rule-scanning dispatcher

    A shallow embedding of [src/yara_scanner.py] (class [YaraScanner] and
    [main]) and the properties of its verdicts, its batch loop and its two
    renderings.

    Conventions of the embedding.
    - A Python [str] is a [string]; a character is a code point below 256.
    - A Python [int] is a [Z]; [len] is a [nat] and is printed through
      [str_of_nat].
    - [None]-able attributes ([rules_dir], [target_file], [error],
      [output_file]) are [option string].
    - The operating system (file tests, directory walk, path functions and
      the external engine) is a record [OS] the functions receive.
    - Two effects can raise, as the record [OS] says: the [print] of a
      worker, which is outside the [try] of [scan_with_rule] and whose
      exception the loop of [run_scan] handles, and the [open] of the output
      file. The console takes every line the main thread prints.
    - The clock is an argument: the text of [datetime.now().isoformat()] for
      a rendering, the text of the elapsed seconds for a batch.
    - The completion order of the worker futures is an argument too: a list
      of positions in the submitted list. *)

From Stdlib Require Import ZArith List String Ascii DecimalString DecimalZ
  DecimalPos Bool Lia Permutation.
Import ListNotations.
Local Open Scope list_scope.
Local Open Scope string_scope.

(** ** Python builtins used by the scanner *)

Module Py.

(** [str(n)] for an [int]. *)
Definition str_of_Z (z : Z) : string := NilZero.string_of_int (Z.to_int z).

(** [str(len(l))]. *)
Definition str_of_nat (n : nat) : string := str_of_Z (Z.of_nat n).

(** Truth value of a [str]: the empty string is false. *)
Definition truthy (s : string) : bool :=
  match s with
  | EmptyString => false
  | String _ _ => true
  end.

(** Truth value of an [Optional[str]]: [None] and [""] are false. *)
Definition truthy_opt (o : option string) : bool :=
  match o with
  | None => false
  | Some s => truthy s
  end.

(** An [Optional[str]] inside an f-string. *)
Definition fmt_opt (o : option string) : string :=
  match o with
  | None => "None"
  | Some s => s
  end.

(** [c.isspace()] on the code points below 256: TAB..CR, FS..US, space,
    NEL (0x85) and NBSP (0xA0). *)
Definition isspace (c : ascii) : bool :=
  let n := nat_of_ascii c in
  (((9 <=? n) && (n <=? 13)) || ((28 <=? n) && (n <=? 32))
   || (n =? 133) || (n =? 160))%nat.

Fixpoint lstrip (s : string) : string :=
  match s with
  | EmptyString => EmptyString
  | String c s' => if isspace c then lstrip s' else s
  end.

Definition reverse (s : string) : string :=
  string_of_list_ascii (rev (list_ascii_of_string s)).

Definition rstrip (s : string) : string := reverse (lstrip (reverse s)).

(** [s.strip()]. *)
Definition strip (s : string) : string := rstrip (lstrip s).

(** [s.endswith(suffix)]. *)
Definition endswith (s suffix : string) : bool :=
  prefix (reverse suffix) (reverse s).

(** [sep.join(ls)] is [String.concat sep ls]. *)
Definition join (sep : string) (ls : list string) : string :=
  String.concat sep ls.

(** [sorted(l, key=key)] for a boolean key ([False < True]): a stable
    sort, written as a straight insertion sort that puts an element in
    front of the first one whose key is not smaller. *)
Section Sorted.
Variable A : Type.
Variable key : A -> bool.

(** [key x <= key y] on booleans. *)
Definition key_le (x y : A) : bool := implb (key x) (key y).

Fixpoint insert (x : A) (l : list A) : list A :=
  match l with
  | [] => [x]
  | y :: l' => if key_le x y then x :: l else y :: insert x l'
  end.

Definition sorted (l : list A) : list A := fold_right insert [] l.
End Sorted.

Arguments key_le {A} key x y.
Arguments insert {A} key x l.
Arguments sorted {A} key l.

End Py.

(** ** Exceptions and results *)

(** The instances of Python's [Exception] the scanner distinguishes:
    [subprocess.TimeoutExpired] and every other one. The text is [str(e)]. *)
Inductive exn : Type :=
| TimeoutExpired (msg : string)
| OtherException (msg : string).

Definition str_exn (e : exn) : string :=
  match e with
  | TimeoutExpired m => m
  | OtherException m => m
  end.

(** What a call does: it returns a value or it raises. *)
Inductive outcome (A : Type) : Type :=
| Returns (a : A)
| Raises (e : exn).

Arguments Returns {A} a.
Arguments Raises {A} e.

(** ** Data *)

(** [subprocess.CompletedProcess] with captured text output. *)
Record CompletedProcess : Type := mkCompleted {
  cp_stdout : string;
  cp_stderr : string;
  cp_returncode : Z
}.

(** The per-rule dictionary built by [scan_with_rule]. *)
Record Verdict : Type := mkVerdict {
  rule_file : string;
  rule_name : string;
  stdout : string;
  stderr : string;
  return_code : Z;
  matches : bool;
  error : option string
}.

(** The attributes of a [YaraScanner] instance. *)
Record YaraScanner : Type := mkScanner {
  yara_path : string;
  rules_dir : option string;
  target_file : option string;
  output_format : string;
  max_workers : Z;
  timeout : Z;
  results : list Verdict
}.

(** [YaraScanner.__init__]: the results list starts empty. *)
Definition init (yara_path : string) (rules_dir target_file : option string)
    (output_format : string) (max_workers timeout : Z) : YaraScanner :=
  {| yara_path := yara_path;
     rules_dir := rules_dir;
     target_file := target_file;
     output_format := output_format;
     max_workers := max_workers;
     timeout := timeout;
     results := [] |}.

(** The argument vector of one engine call; an element is [None] when the
    attribute it comes from is. *)
Definition argv : Type := list (option string).

(** The operating system as the scanner sees it. *)
Record OS : Type := mkOS {
  isfile : string -> bool;
  isdir : string -> bool;
  (** [os.walk]: the visited directories with their file names, in order. *)
  walk : string -> list (string * list string);
  path_join : string -> string -> string;
  basename : string -> string;
  (** [subprocess.run(cmd, capture_output=True, text=True, timeout=t)]. *)
  subprocess_run : argv -> Z -> outcome CompletedProcess;
  (** [print(line)] inside a worker: the exception it raises, [None] when
      the console takes the line. *)
  worker_print : string -> option exn;
  (** [open(path, 'w')] on a path that is no directory: the exception it
      raises, [None] when the file is opened. *)
  open_write : string -> option exn
}.

(** The scanner object together with what the program has done to the
    outside: the arguments of its [print] calls, the engine calls it has
    made and the files it has written (latest first). *)
Record State : Type := mkState {
  scanner : YaraScanner;
  console : list string;
  invocations : list argv;
  written : list (string * string)
}.

Definition print (line : string) (st : State) : State :=
  {| scanner := scanner st;
     console := (console st ++ [line])%list;
     invocations := invocations st;
     written := written st |}.

Definition invoke (cmd : argv) (st : State) : State :=
  {| scanner := scanner st;
     console := console st;
     invocations := (invocations st ++ [cmd])%list;
     written := written st |}.

Definition write_file (path text : string) (st : State) : State :=
  {| scanner := scanner st;
     console := console st;
     invocations := invocations st;
     written := (path, text) :: written st |}.

(** [self.results.append(v)]. *)
Definition append_result (v : Verdict) (st : State) : State :=
  let self := scanner st in
  {| scanner :=
       {| yara_path := yara_path self;
          rules_dir := rules_dir self;
          target_file := target_file self;
          output_format := output_format self;
          max_workers := max_workers self;
          timeout := timeout self;
          results := (results self ++ [v])%list |};
     console := console st;
     invocations := invocations st;
     written := written st |}.

(** ** The invocation adapter: [scan_with_rule] *)

Definition timeout_message (self : YaraScanner) : string :=
  "Timeout after " ++ Py.str_of_Z (timeout self) ++ " seconds".

(** The dictionary of the normal path (lines 75-83). *)
Definition completed_verdict (rule_file rule_name : string)
    (result : CompletedProcess) : Verdict :=
  {| rule_file := rule_file;
     rule_name := rule_name;
     stdout := Py.strip (cp_stdout result);
     stderr := Py.strip (cp_stderr result);
     return_code := cp_returncode result;
     matches := negb (String.eqb (Py.strip (cp_stdout result)) "");
     error := if Py.truthy (Py.strip (cp_stderr result))
              then Some (Py.strip (cp_stderr result))
              else None |}.

(** The dictionary of the [TimeoutExpired] handler (lines 85-93). *)
Definition timeout_verdict (self : YaraScanner) (rule_file rule_name : string)
    : Verdict :=
  {| rule_file := rule_file;
     rule_name := rule_name;
     stdout := "";
     stderr := timeout_message self;
     return_code := (-1)%Z;
     matches := false;
     error := Some (timeout_message self) |}.

(** The dictionary of the [Exception] handler (lines 95-103). *)
Definition exception_verdict (rule_file rule_name : string) (e : exn)
    : Verdict :=
  {| rule_file := rule_file;
     rule_name := rule_name;
     stdout := "";
     stderr := str_exn e;
     return_code := (-1)%Z;
     matches := false;
     error := Some (str_exn e) |}.

Definition command (self : YaraScanner) (rule_file : string) : argv :=
  [Some (yara_path self); Some "-s"; Some "-m"; Some "-g";
   Some rule_file; target_file self].

(** [scan_with_rule]. The [print] of line 56 comes before the [try] of
    line 67: when it raises, the call raises, nothing having been launched. *)
Definition scan_with_rule (os : OS) (rule_file : string) (st : State)
    : State * outcome Verdict :=
  let self := scanner st in
  let rule_name := basename os rule_file in
  match worker_print os ("Scanning with rule: " ++ rule_name ++ "...") with
  | Some e => (st, Raises e)
  | None =>
      let st := print ("Scanning with rule: " ++ rule_name ++ "...") st in
      let cmd := command self rule_file in
      let st := invoke cmd st in
      match subprocess_run os cmd (timeout self) with
      | Returns result =>
          (st, Returns (completed_verdict rule_file rule_name result))
      | Raises (TimeoutExpired _) =>
          (st, Returns (timeout_verdict self rule_file rule_name))
      | Raises (OtherException m) =>
          (st, Returns (exception_verdict rule_file rule_name
                                          (OtherException m)))
      end
  end.

(** ** Rule discovery: [find_rule_files] *)

Definition is_rule_name (file : string) : bool :=
  Py.endswith file ".yar" || Py.endswith file ".yara".

Definition find_rule_files (os : OS) (st : State) : State * list string :=
  let self := scanner st in
  if negb (Py.truthy_opt (rules_dir self))
     || negb (isdir os (Py.fmt_opt (rules_dir self)))
  then
    (print ("Error: Rules directory not found or not a directory: "
            ++ Py.fmt_opt (rules_dir self)) st, [])
  else
    let rule_files :=
      flat_map (fun entry : string * list string =>
                  map (path_join os (fst entry))
                      (filter is_rule_name (snd entry)))
               (walk os (Py.fmt_opt (rules_dir self))) in
    (print ("Found " ++ Py.str_of_nat (List.length rule_files)
            ++ " YARA rule files") st, rule_files).

(** ** The dispatcher: [run_scan] *)

(** The elements of [l] at the positions [order] lists, in that order. *)
Definition pick {A : Type} (order : list nat) (l : list A) : list A :=
  flat_map (fun i => match nth_error l i with
                     | Some x => [x]
                     | None => []
                     end) order.

(** An entry of [future_to_rule]: what [future.result()] does, and the rule
    the future was submitted for. *)
Definition Future : Type := (outcome Verdict * string)%type.

(** The dictionary comprehension of line 120: one [scan_with_rule] call per
    rule. The console line and the engine call of a worker are recorded when
    its call is submitted. *)
Fixpoint submit_all (os : OS) (rule_files : list string) (st : State)
    : State * list Future :=
  match rule_files with
  | [] => (st, [])
  | rule :: rest =>
      let (st1, r) := scan_with_rule os rule st in
      let (st2, futures) := submit_all os rest st1 in
      (st2, (r, rule) :: futures)
  end.

(** [concurrent.futures.as_completed]: the futures in the order they
    complete, [order] listing their positions in the submitted list. *)
Definition as_completed (order : list nat) (futures : list Future)
    : list Future :=
  pick order futures.

(** The body of the loop of lines 121-127 for one completed future. *)
Definition collect (future : Future) (st : State) : State :=
  let rule := snd future in
  match fst future with
  | Returns result => append_result result st
  | Raises e =>
      print ("Error processing rule " ++ rule ++ ": " ++ str_exn e) st
  end.

Definition gather (completed : list Future) (st : State) : State :=
  fold_left (fun st future => collect future st) completed st.

Definition newline : string := String (ascii_of_nat 10) EmptyString.

(** [run_scan]. [elapsed] is the text of [f"{elapsed:.2f}"]; [order] is the
    completion order of the futures. [ThreadPoolExecutor] refuses a worker
    count below one with a [ValueError]. *)
Definition run_scan (os : OS) (elapsed : string) (order : list nat)
    (st : State) : State * outcome unit :=
  let self := scanner st in
  if negb (Py.truthy_opt (target_file self))
     || negb (isfile os (Py.fmt_opt (target_file self)))
  then
    (print ("Error: Target file not found: "
            ++ Py.fmt_opt (target_file self)) st, Returns tt)
  else
    let (st, rule_files) := find_rule_files os st in
    match rule_files with
    | [] => (print "No rule files found to scan with." st, Returns tt)
    | _ :: _ =>
        if (max_workers self <=? 0)%Z
        then (st, Raises (OtherException "max_workers must be greater than 0"))
        else
          let (st, futures) := submit_all os rule_files st in
          let st := gather (as_completed order futures) st in
          let st :=
            print (newline ++ "Completed scan in " ++ elapsed ++ " seconds")
                  st in
          let matching_rules := filter matches (results (scanner st)) in
          (print ("Found " ++ Py.str_of_nat (List.length matching_rules)
                  ++ " matching rules out of "
                  ++ Py.str_of_nat (List.length rule_files) ++ " total rules") st,
           Returns tt)
    end.

(** ** JSON output: [json.dumps(obj, indent=2)] *)

Module Json.

#[local] Unset Elimination Schemes.
Inductive value : Type :=
| Null
| Bool (b : bool)
| Int (z : Z)
| Str (s : string)
| Arr (items : list value)
| Obj (members : list (string * value)).
#[local] Set Elimination Schemes.

Definition dquote : string := String (ascii_of_nat 34) EmptyString.

Definition hex_digit (n : nat) : string :=
  String (nth n (list_ascii_of_string "0123456789abcdef") "0"%char)
         EmptyString.

(** The encoder with [ensure_ascii=True]: a printable ASCII character
    stands for itself except the quote and the backslash; the others have
    a short escape or a [\u00xx] one. *)
Definition escape_char (c : ascii) : string :=
  let n := nat_of_ascii c in
  if (n =? 34)%nat then "\" ++ dquote
  else if (n =? 92)%nat then "\\"
  else if (n =? 10)%nat then "\n"
  else if (n =? 13)%nat then "\r"
  else if (n =? 9)%nat then "\t"
  else if (n =? 12)%nat then "\f"
  else if (n =? 8)%nat then "\b"
  else if ((32 <=? n) && (n <=? 126))%nat then String c EmptyString
  else "\u00" ++ hex_digit (n / 16) ++ hex_digit (n mod 16).

Fixpoint escape (s : string) : string :=
  match s with
  | EmptyString => EmptyString
  | String c s' => escape_char c ++ escape s'
  end.

Definition encode_str (s : string) : string := dquote ++ escape s ++ dquote.

Fixpoint spaces (n : nat) : string :=
  match n with
  | O => EmptyString
  | S n' => String " "%char (spaces n')
  end.

(** [level] is the nesting depth; an indentation step is two spaces. *)
Fixpoint encode (level : nat) (v : value) : string :=
  match v with
  | Null => "null"
  | Bool true => "true"
  | Bool false => "false"
  | Int z => Py.str_of_Z z
  | Str s => encode_str s
  | Arr [] => "[]"
  | Arr items =>
      let inner := newline ++ spaces (2 * S level) in
      "[" ++ inner
      ++ Py.join ("," ++ inner) (map (encode (S level)) items)
      ++ newline ++ spaces (2 * level) ++ "]"
  | Obj [] => "{}"
  | Obj members =>
      let inner := newline ++ spaces (2 * S level) in
      "{" ++ inner
      ++ Py.join ("," ++ inner)
           (map (fun m : string * value =>
                   encode_str (fst m) ++ ": " ++ encode (S level) (snd m))
                members)
      ++ newline ++ spaces (2 * level) ++ "}"
  end.

Definition dumps (v : value) : string := encode 0 v.

(** [d[k]] on an object. *)
Fixpoint get (k : string) (members : list (string * value)) : option value :=
  match members with
  | [] => None
  | (k', v) :: rest => if String.eqb k k' then Some v else get k rest
  end.

End Json.

(** ** The aggregator: [output_results] *)

Definition opt_json (o : option string) : Json.value :=
  match o with
  | None => Json.Null
  | Some s => Json.Str s
  end.

(** A verdict dictionary as [json] sees it, keys in insertion order. *)
Definition verdict_json (v : Verdict) : Json.value :=
  Json.Obj
    [("rule_file", Json.Str (rule_file v));
     ("rule_name", Json.Str (rule_name v));
     ("stdout", Json.Str (stdout v));
     ("stderr", Json.Str (stderr v));
     ("return_code", Json.Int (return_code v));
     ("matches", Json.Bool (matches v));
     ("error", opt_json (error v))].

(** [output_data] of lines 145-152; [now] is the text of
    [datetime.now().isoformat()] read by this rendering. *)
Definition output_members (self : YaraScanner) (now : string)
    : list (string * Json.value) :=
  [("scan_time", Json.Str now);
   ("target_file", opt_json (target_file self));
   ("rules_dir", opt_json (rules_dir self));
   ("total_rules", Json.Int (Z.of_nat (List.length (results self))));
   ("matching_rules",
    Json.Int (Z.of_nat (List.length (filter matches (results self)))));
   ("results", Json.Arr (map verdict_json (results self)))].

Definition output_data (self : YaraScanner) (now : string) : Json.value :=
  Json.Obj (output_members self now).

(** The first eight elements of [output_lines] (lines 162-171). *)
Definition header_lines (self : YaraScanner) (now : string) : list string :=
  ["YARA Scan Results";
   "=====================================";
   "Target File: " ++ Py.fmt_opt (target_file self);
   "Rules Directory: " ++ Py.fmt_opt (rules_dir self);
   "Scan Time: " ++ now;
   "Total Rules: " ++ Py.str_of_nat (List.length (results self));
   "Matching Rules: "
     ++ Py.str_of_nat (List.length (filter matches (results self)));
   "=====================================" ++ newline].

(** Line 174: [sorted(self.results, key=lambda x: not x["matches"])]. *)
Definition sorted_results (self : YaraScanner) : list Verdict :=
  Py.sorted (fun x => negb (matches x)) (results self).

(** What one pass of the loop of lines 176-183 appends. *)
Definition entry_lines (result : Verdict) : list string :=
  if matches result then
    ["[+] MATCH: " ++ rule_name result;
     stdout result;
     "-------------------------------------"]
  else if Py.truthy_opt (error result) then
    ["[!] ERROR: " ++ rule_name result ++ " - " ++ Py.fmt_opt (error result)]
  else [].

Definition output_lines (self : YaraScanner) (now : string) : list string :=
  (header_lines self now ++ flat_map entry_lines (sorted_results self))%list.

Definition output_text (self : YaraScanner) (now : string) : string :=
  Py.join newline (output_lines self now).

(** The text either mode produces, before it is printed or written. *)
Definition rendering (self : YaraScanner) (now : string) : string :=
  if String.eqb (output_format self) "json"
  then Json.dumps (output_data self now)
  else output_text self now.

(** [open(path, 'w')]: a directory cannot be opened for writing
    ([IsADirectoryError]); for another path the system decides. *)
Definition open_for_writing (os : OS) (path : string) : option exn :=
  if isdir os path
  then Some (OtherException ("[Errno 21] Is a directory: '" ++ path ++ "'"))
  else open_write os path.

(** [output_results]. The [open] of lines 155 and 188 has no handler: when
    it raises, the call raises, nothing having been written or printed. *)
Definition output_results (os : OS) (output_file : option string)
    (now : string) (st : State) : State * outcome unit :=
  let self := scanner st in
  if Py.truthy_opt output_file then
    match open_for_writing os (Py.fmt_opt output_file) with
    | Some e => (st, Raises e)
    | None =>
        let st :=
          write_file (Py.fmt_opt output_file) (rendering self now) st in
        (print ("Results saved to " ++ Py.fmt_opt output_file) st,
         Returns tt)
    end
  else
    (print (rendering self now) st, Returns tt).

(** ** [main] *)

(** The parsed command line. *)
Record Args : Type := mkArgs {
  arg_rules_dir : string;
  arg_target : string;
  arg_yara_path : string;
  arg_output : option string;
  arg_format : string;
  arg_workers : Z;
  arg_timeout : Z
}.

Definition fresh_state (self : YaraScanner) : State :=
  {| scanner := self; console := []; invocations := []; written := [] |}.

(** [main] after [parse_args]: the state the process leaves behind and
    whether it ended by returning or by an uncaught exception. *)
Definition main (os : OS) (args : Args) (elapsed now : string)
    (order : list nat) : State * outcome unit :=
  let st :=
    fresh_state (init (arg_yara_path args) (Some (arg_rules_dir args))
                      (Some (arg_target args)) (arg_format args)
                      (arg_workers args) (arg_timeout args)) in
  match run_scan os elapsed order st with
  | (st, Raises e) => (st, Raises e)
  | (st, Returns _) => output_results os (arg_output args) now st
  end.

(** The exit status of the interpreter: 0 when [main] returns, 1 when an
    exception reaches the top level. *)
Definition exit_status (r : outcome unit) : Z :=
  match r with
  | Returns _ => 0%Z
  | Raises _ => 1%Z
  end.

(** ** A concrete system to run the model on *)

Module Example.

Fixpoint after_last_slash (candidate rest : string) : string :=
  match rest with
  | EmptyString => candidate
  | String c rest' =>
      if Ascii.eqb c "/"%char then after_last_slash rest' rest'
      else after_last_slash candidate rest'
  end.

(** [posixpath.basename] and [posixpath.join] on a relative second part. *)
Definition posix_basename (p : string) : string := after_last_slash p p.
Definition posix_join (a b : string) : string := a ++ "/" ++ b.

(** The engine of the example, told apart by the rule of the call:
    [a.yar] matches cleanly, [b.yara] prints a match and a warning and
    exits with 1, [c.yar] runs out of time, [d.yar] prints nothing and
    [e.yar] cannot be launched. *)
Definition engine (cmd : argv) (t : Z) : outcome CompletedProcess :=
  match nth_error cmd 4 with
  | Some (Some rule) =>
      if String.eqb rule "rules/a.yar" then
        Returns (mkCompleted ("rule_a sample.bin" ++ newline) EmptyString 0)
      else if String.eqb rule "rules/b.yara" then
        Returns (mkCompleted ("rule_b sample.bin" ++ newline)
                             ("warning: slow rule" ++ newline) 1)
      else if String.eqb rule "rules/c.yar" then
        Raises (TimeoutExpired "Command timed out")
      else if String.eqb rule "rules/d.yar" then
        Returns (mkCompleted EmptyString EmptyString 0)
      else Raises (OtherException "Permission denied")
  | _ => Raises (OtherException "expected str")
  end.

(** A console that encodes ASCII only: a worker that prints another
    character gets a [UnicodeEncodeError]. *)
Definition ascii_console (line : string) : option exn :=
  if forallb (fun c => (nat_of_ascii c <? 128)%nat)
             (list_ascii_of_string line)
  then None
  else Some (OtherException
               "'ascii' codec can't encode character: ordinal not in range(128)").

(** A file system with no directory [nodir]: a file cannot be created
    below it. *)
Definition missing_parent (path : string) : option exn :=
  if prefix "nodir/" path
  then Some (OtherException
               ("[Errno 2] No such file or directory: '" ++ path ++ "'"))
  else None.

Definition os (rule_names : list string) : OS :=
  {| isfile := fun p => String.eqb p "sample.bin";
     isdir := fun p => String.eqb p "rules";
     walk := fun p => [(p, rule_names)];
     path_join := posix_join;
     basename := posix_basename;
     subprocess_run := engine;
     worker_print := ascii_console;
     open_write := missing_parent |}.


Definition all_rules : list string :=
  ["a.yar"; "notes.txt"; "b.yara"; "c.yar"; "d.yar"; "e.yar"].

Definition self (format : string) : YaraScanner :=
  init "yara64.exe" (Some "rules") (Some "sample.bin") format 4 30.

Definition start (format : string) : State := fresh_state (self format).

Definition verdict_a : Verdict :=
  {| rule_file := "rules/a.yar"; rule_name := "a.yar";
     stdout := "rule_a sample.bin"; stderr := EmptyString;
     return_code := 0; matches := true; error := None |}.

Definition verdict_b : Verdict :=
  {| rule_file := "rules/b.yara"; rule_name := "b.yara";
     stdout := "rule_b sample.bin"; stderr := "warning: slow rule";
     return_code := 1; matches := true;
     error := Some "warning: slow rule" |}.

Definition verdict_c : Verdict :=
  {| rule_file := "rules/c.yar"; rule_name := "c.yar";
     stdout := EmptyString; stderr := "Timeout after 30 seconds";
     return_code := (-1); matches := false;
     error := Some "Timeout after 30 seconds" |}.

Definition verdict_d : Verdict :=
  {| rule_file := "rules/d.yar"; rule_name := "d.yar";
     stdout := EmptyString; stderr := EmptyString;
     return_code := 0; matches := false; error := None |}.

Definition verdict_e : Verdict :=
  {| rule_file := "rules/e.yar"; rule_name := "e.yar";
     stdout := EmptyString; stderr := "Permission denied";
     return_code := (-1); matches := false;
     error := Some "Permission denied" |}.

End Example.

(** ** Definitions the statements use *)

(** The verdicts of the futures that returned, in the order given. *)
Definition returned (futures : list Future) : list Verdict :=
  flat_map (fun f : Future => match fst f with
                              | Returns v => [v]
                              | Raises _ => []
                              end) futures.


(** The two preconditions of [run_scan], as the code tests them. *)
Definition target_missing (os : OS) (st : State) : bool :=
  negb (Py.truthy_opt (target_file (scanner st)))
  || negb (isfile os (Py.fmt_opt (target_file (scanner st)))).

Definition no_rules (os : OS) (st : State) : bool :=
  match snd (find_rule_files os st) with
  | [] => true
  | _ :: _ => false
  end.

(** The verdicts a [run_scan] call adds: none when it stops at a
    precondition or at the worker count, else those of the futures that
    returned, in completion order. *)
Definition batch (os : OS) (order : list nat) (st : State) : list Verdict :=
  if target_missing os st || no_rules os st
     || (max_workers (scanner st) <=? 0)%Z
  then []
  else
    let (st1, rule_files) := find_rule_files os st in
    returned (as_completed order (snd (submit_all os rule_files st1))).

(** Stable partition by [matches], in the spec's words: the matched
    verdicts in their order, then the others in theirs. *)
Definition stable_partition (verdicts : list Verdict) : list Verdict :=
  (filter matches verdicts
   ++ filter (fun v => negb (matches v)) verdicts)%list.

(** The verdicts of a rule list in discovery order. *)
Definition discovery_verdicts (os : OS) (rule_files : list string)
    (st : State) : list Verdict :=
  returned (snd (submit_all os rule_files st)).

(** The text block of a verdict, in the words of the spec: a block with the
    engine output for a match, one line for a non-match with a (non-empty)
    error description, nothing for the others. *)
Definition spec_block (v : Verdict) : list string :=
  match matches v, error v with
  | true, _ =>
      ["[+] MATCH: " ++ rule_name v; stdout v;
       "-------------------------------------"]
  | false, Some (String c e) =>
      ["[!] ERROR: " ++ rule_name v ++ " - " ++ String c e]
  | false, _ => []
  end.

(** A non-match whose error description is there and not empty. *)
Definition errored_nonmatch (v : Verdict) : bool :=
  negb (matches v) && Py.truthy_opt (error v).


(** The rendering cannot be written: an output path is given and opening
    it raises. *)
Definition report_blocked (os : OS) (output_file : option string) : bool :=
  Py.truthy_opt output_file
  && match open_for_writing os (Py.fmt_opt output_file) with
     | Some _ => true
     | None => false
     end.

(** What a rendering adds to the console and to the files when the text it
    produces is [text]: nothing when it cannot be written. *)
Definition emitted_lines (os : OS) (output_file : option string)
    (text : string) : list string :=
  if Py.truthy_opt output_file
  then if report_blocked os output_file
       then []
       else ["Results saved to " ++ Py.fmt_opt output_file]
  else [text].

Definition emitted_files (os : OS) (output_file : option string)
    (text : string) : list (string * string) :=
  if Py.truthy_opt output_file
  then if report_blocked os output_file
       then []
       else [(Py.fmt_opt output_file, text)]
  else [].

(** The line a worker prints for a rule (line 56). *)
Definition scan_banner (os : OS) (rule_file : string) : string :=
  "Scanning with rule: " ++ basename os rule_file ++ "...".

(** The console takes the line of a worker. *)
Definition accepted (os : OS) (line : string) : bool :=
  match worker_print os line with
  | None => true
  | Some _ => false
  end.

(** The console takes the line of the worker of every rule of the list. *)
Definition all_accepted (os : OS) (rule_files : list string) : bool :=
  forallb (fun rule => accepted os (scan_banner os rule)) rule_files.

(** The verdict the [try] statement of [scan_with_rule] builds from what
    the engine call does (lines 67-103). *)
Definition engine_verdict (os : OS) (self : YaraScanner)
    (rule_file : string) : Verdict :=
  match subprocess_run os (command self rule_file) (timeout self) with
  | Returns result =>
      completed_verdict rule_file (basename os rule_file) result
  | Raises (TimeoutExpired _) =>
      timeout_verdict self rule_file (basename os rule_file)
  | Raises (OtherException m) =>
      exception_verdict rule_file (basename os rule_file) (OtherException m)
  end.

(** The attributes of a scanner other than its collected results. *)
Definition configuration (self : YaraScanner)
    : string * option string * option string * string * Z * Z :=
  (yara_path self, rules_dir self, target_file self, output_format self,
   max_workers self, timeout self).

(** A batch that gets as far as its worker pool: both preconditions hold
    and the worker count is at least one. *)
Definition batch_runs (os : OS) (st : State) : bool :=
  negb (target_missing os st || no_rules os st
        || (max_workers (scanner st) <=? 0)%Z).

(** The rules directory passes the test of [find_rule_files]. *)
Definition rules_dir_found (os : OS) (st : State) : bool :=
  Py.truthy_opt (rules_dir (scanner st))
  && isdir os (Py.fmt_opt (rules_dir (scanner st))).

(** A string that begins, or ends, with a whitespace character. *)
Definition starts_with_space (s : string) : bool :=
  match s with
  | EmptyString => false
  | String c _ => Py.isspace c
  end.

Definition ends_with_space (s : string) : bool :=
  starts_with_space (Py.reverse s).

(** A string of whitespace characters only. *)
Definition all_space (s : string) : bool :=
  forallb Py.isspace (list_ascii_of_string s).

(** A completion order for [n] futures: every position once. *)
Definition completion_order (order : list nat) (n : nat) : Prop :=
  Permutation order (seq 0 n).

(** An entry of the JSON results array whose matches member is true. *)
Definition is_matched_entry (entry : Json.value) : bool :=
  match entry with
  | Json.Obj members =>
      match Json.get "matches" members with
      | Some (Json.Bool true) => true
      | _ => false
      end
  | _ => false
  end.

(** The latest text written to [path], if any. *)
Fixpoint read_file (path : string) (files : list (string * string))
    : option string :=
  match files with
  | [] => None
  | (p, text) :: rest =>
      if String.eqb path p then Some text else read_file path rest
  end.

(** A printable ASCII character (space to tilde) or a line feed. *)
Definition plain_char (c : ascii) : bool :=
  let n := nat_of_ascii c in
  ((n =? 10) || ((32 <=? n) && (n <=? 126)))%nat.

(** A text of such characters only. *)
Definition plain_ascii (s : string) : bool :=
  forallb plain_char (list_ascii_of_string s).

(** Reading the first character of an escaped JSON string back: the
    inverse of [Json.escape_char], used to show that the JSON text keeps
    what was encoded. *)
Definition hex_value (c : ascii) : nat :=
  let n := nat_of_ascii c in
  if ((48 <=? n) && (n <=? 57))%nat then n - 48 else n - 87.

Definition read_char (s : string) : option (ascii * string) :=
  match s with
  | EmptyString => None
  | String c rest =>
      if (nat_of_ascii c =? 92)%nat then
        match rest with
        | EmptyString => None
        | String x rest' =>
            let n := nat_of_ascii x in
            if (n =? 34)%nat then Some (ascii_of_nat 34, rest')
            else if (n =? 92)%nat then Some (ascii_of_nat 92, rest')
            else if (n =? 110)%nat then Some (ascii_of_nat 10, rest')
            else if (n =? 114)%nat then Some (ascii_of_nat 13, rest')
            else if (n =? 116)%nat then Some (ascii_of_nat 9, rest')
            else if (n =? 102)%nat then Some (ascii_of_nat 12, rest')
            else if (n =? 98)%nat then Some (ascii_of_nat 8, rest')
            else
              match rest' with
              | String _ (String _ (String h (String l rest''))) =>
                  Some (ascii_of_nat (16 * hex_value h + hex_value l),
                        rest'')
              | _ => None
              end
        end
      else Some (c, rest)
  end.

(** * Properties *)

(** ** Python builtins *)

Lemma truthy_iff (s : string) : Py.truthy s = true <-> s <> EmptyString.
Proof.
  destruct s; simpl; split; intro H; try discriminate; try reflexivity.
  now elim H.
Qed.

Lemma eqb_empty_truthy (s : string) :
  negb (String.eqb s EmptyString) = Py.truthy s.
Proof. now destruct s. Qed.

Section SortedFacts.
Variable A : Type.
Variable key : A -> bool.

Lemma insert_low (x : A) (l : list A) :
  key x = false -> Py.insert key x l = x :: l.
Proof.
  intro Hx. destruct l as [|y l]; simpl; [reflexivity|].
  unfold Py.key_le. now rewrite Hx.
Qed.

Lemma insert_high_all_high (x : A) (l : list A) :
  key x = true -> Forall (fun y => key y = true) l ->
  Py.insert key x l = x :: l.
Proof.
  intros Hx Hl. destruct Hl as [|y l Hy _]; simpl; [reflexivity|].
  unfold Py.key_le. now rewrite Hx, Hy.
Qed.

Lemma insert_high_skips_low (x : A) (low rest : list A) :
  key x = true -> Forall (fun y => key y = false) low ->
  Py.insert key x (low ++ rest) = (low ++ Py.insert key x rest)%list.
Proof.
  intros Hx Hlow. induction Hlow as [|y low Hy _ IH]; simpl; [reflexivity|].
  unfold Py.key_le. rewrite Hx, Hy. simpl. now rewrite IH.
Qed.

Lemma filter_all (p : A -> bool) (l : list A) :
  Forall (fun y => p y = true) (filter p l).
Proof.
  apply Forall_forall. intros y Hy. now apply filter_In in Hy.
Qed.

(** A stable sort on a boolean key is a stable partition: the elements
    with key [false] in their order, then those with key [true]. *)
Lemma sorted_is_partition (l : list A) :
  Py.sorted key l
  = (filter (fun y => negb (key y)) l ++ filter key l)%list.
Proof.
  induction l as [|x l IH]; [reflexivity|].
  change (Py.sorted key (x :: l)) with (Py.insert key x (Py.sorted key l)).
  rewrite IH. simpl. destruct (key x) eqn:Hx; simpl.
  - rewrite insert_high_skips_low; [| assumption |].
    + now rewrite insert_high_all_high by (assumption || apply filter_all).
    + generalize (filter_all (fun y => negb (key y)) l).
      apply Forall_impl. intros y Hy. now apply negb_true_iff.
  - now apply insert_low.
Qed.
End SortedFacts.

(** ** The invocation adapter *)

Lemma scan_with_rule_result (os : OS) (rule : string) (st : State) :
  snd (scan_with_rule os rule st)
  = match worker_print os (scan_banner os rule) with
    | Some e => Raises e
    | None => Returns (engine_verdict os (scanner st) rule)
    end.
Proof.
  unfold scan_with_rule, scan_banner, engine_verdict.
  destruct (worker_print os _) as [e|]; [reflexivity|]. simpl.
  destruct (subprocess_run os _ _) as [result|[m|m]]; reflexivity.
Qed.

Lemma scan_with_rule_state (os : OS) (rule : string) (st : State) :
  fst (scan_with_rule os rule st)
  = match worker_print os (scan_banner os rule) with
    | Some _ => st
    | None => invoke (command (scanner st) rule)
                     (print (scan_banner os rule) st)
    end.
Proof.
  unfold scan_with_rule, scan_banner.
  destruct (worker_print os _) as [e|]; [reflexivity|]. simpl.
  destruct (subprocess_run os _ _) as [result|[m|m]]; reflexivity.
Qed.

Lemma scan_with_rule_scanner (os : OS) (rule : string) (st : State) :
  scanner (fst (scan_with_rule os rule st)) = scanner st.
Proof.
  rewrite scan_with_rule_state.
  destruct (worker_print os _); reflexivity.
Qed.

(** What the call returns when the console takes the line of the worker. *)
Lemma scan_with_rule_accepted (os : OS) (rule : string) (st : State) :
  accepted os (scan_banner os rule) = true ->
  snd (scan_with_rule os rule st)
  = Returns (engine_verdict os (scanner st) rule).
Proof.
  unfold accepted. intro Hacc. rewrite scan_with_rule_result.
  destruct (worker_print os _); [discriminate | reflexivity].
Qed.

(** C1, as the code has it: on a completed engine process (the worker
    having printed its line) the matched flag of the verdict is true if and
    only if the trimmed stdout is non-empty; the exit status is recorded as
    it is and plays no part in the flag. *)
Theorem scan_with_rule_matched_iff_stdout :
  forall (os : OS) (rule : string) (st : State) (result : CompletedProcess),
    accepted os (scan_banner os rule) = true ->
    subprocess_run os (command (scanner st) rule) (timeout (scanner st))
    = Returns result ->
    exists v : Verdict,
      snd (scan_with_rule os rule st) = Returns v
      /\ stdout v = Py.strip (cp_stdout result)
      /\ return_code v = cp_returncode result
      /\ (matches v = true <-> Py.strip (cp_stdout result) <> EmptyString).
Proof.
  intros os rule st result Hacc Hrun.
  rewrite (scan_with_rule_accepted os rule st Hacc).
  unfold engine_verdict. rewrite Hrun.
  eexists; split; [reflexivity|]. simpl.
  rewrite eqb_empty_truthy. repeat split; apply truthy_iff; assumption.
Qed.

Lemma scan_with_rule_matched_iff_stdout_witness :
  exists v : Verdict,
    snd (scan_with_rule (Example.os Example.all_rules) "rules/b.yara"
                        (Example.start "text")) = Returns v
    /\ stdout v = Py.strip ("rule_b sample.bin" ++ newline)
    /\ return_code v = 1%Z
    /\ (matches v = true
        <-> Py.strip ("rule_b sample.bin" ++ newline) <> EmptyString).
Proof.
  apply (scan_with_rule_matched_iff_stdout
           (Example.os Example.all_rules) "rules/b.yara"
           (Example.start "text")
           (mkCompleted ("rule_b sample.bin" ++ newline)
                        ("warning: slow rule" ++ newline) 1)).
  - reflexivity.
  - reflexivity.
Defined.

(** C1 as stated fails: the engine call for [b.yara] completes with exit
    status 1 and a non-empty stdout, and the verdict is matched. *)
Lemma nonzero_exit_is_matched :
  subprocess_run (Example.os Example.all_rules)
    (command (Example.self "text") "rules/b.yara") 30
  = Returns (mkCompleted ("rule_b sample.bin" ++ newline)
                         ("warning: slow rule" ++ newline) 1)
  /\ snd (scan_with_rule (Example.os Example.all_rules) "rules/b.yara"
                         (Example.start "text"))
     = Returns Example.verdict_b
  /\ ~ (matches Example.verdict_b = true
        <-> stdout Example.verdict_b <> EmptyString
            /\ return_code Example.verdict_b = 0%Z).
Proof.
  split; [reflexivity|]. split; [reflexivity|].
  intros [H _]. destruct (H eq_refl) as [_ Hcode]. discriminate Hcode.
Qed.

(** C2, as the code has it (the worker having printed its line): whenever
    the engine call raises (a timeout or any other exception, a launch
    failure included) the verdict is not matched and carries an error; when
    the call completes, the error is set exactly when the trimmed stderr is
    non-empty and the matched flag exactly when the trimmed stdout is, each
    without regard to the other. *)
Theorem scan_with_rule_error_and_matched :
  forall (os : OS) (rule : string) (st : State),
    accepted os (scan_banner os rule) = true ->
    exists v : Verdict,
      snd (scan_with_rule os rule st) = Returns v
      /\ match subprocess_run os (command (scanner st) rule)
                              (timeout (scanner st)) with
         | Raises _ => matches v = false /\ error v <> None
         | Returns result =>
             (error v <> None <-> Py.strip (cp_stderr result) <> EmptyString)
             /\ (matches v = true
                 <-> Py.strip (cp_stdout result) <> EmptyString)
         end.
Proof.
  intros os rule st Hacc.
  rewrite (scan_with_rule_accepted os rule st Hacc).
  eexists; split; [reflexivity|]. unfold engine_verdict.
  destruct (subprocess_run os _ _) as [result|[m|m]]; simpl.
  - split.
    + rewrite <- truthy_iff.
      destruct (Py.truthy (Py.strip (cp_stderr result)));
        split; intro H; try discriminate; try reflexivity.
      now elim H.
    + rewrite eqb_empty_truthy. apply truthy_iff.
  - split; [reflexivity | discriminate].
  - split; [reflexivity | discriminate].
Qed.

Lemma scan_with_rule_error_and_matched_witness :
  exists v : Verdict,
    snd (scan_with_rule (Example.os Example.all_rules) "rules/e.yar"
                        (Example.start "text")) = Returns v
    /\ match subprocess_run (Example.os Example.all_rules)
                            (command (Example.self "text") "rules/e.yar")
                            30 with
       | Raises _ => matches v = false /\ error v <> None
       | Returns result =>
           (error v <> None <-> Py.strip (cp_stderr result) <> EmptyString)
           /\ (matches v = true
               <-> Py.strip (cp_stdout result) <> EmptyString)
       end.
Proof.
  apply (scan_with_rule_error_and_matched
           (Example.os Example.all_rules) "rules/e.yar"
           (Example.start "text")).
  reflexivity.
Defined.

(** C2 as stated fails: the verdict of [b.yara] is matched and carries the
    warning the engine wrote to stderr as its error. *)
Lemma matched_with_error_set :
  snd (scan_with_rule (Example.os Example.all_rules) "rules/b.yara"
                      (Example.start "text"))
  = Returns Example.verdict_b
  /\ matches Example.verdict_b = true
  /\ error Example.verdict_b = Some "warning: slow rule"
  /\ ~ (matches Example.verdict_b = true -> error Example.verdict_b = None).
Proof.
  repeat split. intro H. discriminate (H eq_refl).
Qed.

(** C4, as the code has it: when the engine call runs out of time (the
    worker having printed its line) the verdict is not matched, its exit status is -1 (no exit code, these being
    non-negative), its error is the message naming the configured timeout,
    its stdout is empty and its stderr holds that same message. *)
Theorem scan_with_rule_timeout :
  forall (os : OS) (rule : string) (st : State) (msg : string),
    accepted os (scan_banner os rule) = true ->
    subprocess_run os (command (scanner st) rule) (timeout (scanner st))
    = Raises (TimeoutExpired msg) ->
    exists v : Verdict,
      snd (scan_with_rule os rule st) = Returns v
      /\ matches v = false
      /\ return_code v = (-1)%Z
      /\ (forall code : Z, (0 <= code)%Z -> return_code v <> code)
      /\ error v
         = Some ("Timeout after " ++ Py.str_of_Z (timeout (scanner st))
                 ++ " seconds")
      /\ stdout v = EmptyString
      /\ stderr v
         = "Timeout after " ++ Py.str_of_Z (timeout (scanner st))
           ++ " seconds".
Proof.
  intros os rule st msg Hacc Hrun.
  rewrite (scan_with_rule_accepted os rule st Hacc).
  unfold engine_verdict. rewrite Hrun.
  eexists; split; [reflexivity|]. simpl.
  repeat split. intros code Hcode. lia.
Qed.

Lemma scan_with_rule_timeout_witness :
  exists v : Verdict,
    snd (scan_with_rule (Example.os Example.all_rules) "rules/c.yar"
                        (Example.start "text")) = Returns v
    /\ matches v = false
    /\ return_code v = (-1)%Z
    /\ (forall code : Z, (0 <= code)%Z -> return_code v <> code)
    /\ error v = Some "Timeout after 30 seconds"
    /\ stdout v = EmptyString
    /\ stderr v = "Timeout after 30 seconds".
Proof.
  apply (scan_with_rule_timeout
           (Example.os Example.all_rules) "rules/c.yar"
           (Example.start "text") "Command timed out").
  - reflexivity.
  - reflexivity.
Defined.

(** C4 as stated fails: the stderr field of a timeout verdict is not
    empty. *)
Lemma timeout_stderr_not_empty :
  subprocess_run (Example.os Example.all_rules)
    (command (Example.self "text") "rules/c.yar") 30
  = Raises (TimeoutExpired "Command timed out")
  /\ snd (scan_with_rule (Example.os Example.all_rules) "rules/c.yar"
                         (Example.start "text"))
     = Returns Example.verdict_c
  /\ stderr Example.verdict_c = "Timeout after 30 seconds"
  /\ ~ (stdout Example.verdict_c = EmptyString
        /\ stderr Example.verdict_c = EmptyString).
Proof.
  repeat split. intros [_ H]. discriminate H.
Qed.

(** Every future of a batch returns a verdict when the console takes the
    lines of the workers. *)
Lemma submit_all_returned (os : OS) (rule_files : list string) (st : State) :
  all_accepted os rule_files = true ->
  Forall (fun f : Future => exists v : Verdict, fst f = Returns v)
         (snd (submit_all os rule_files st)).
Proof.
  revert st. induction rule_files as [|rule rest IH]; intros st Hall.
  - constructor.
  - cbn [all_accepted forallb] in Hall.
    apply andb_true_iff in Hall as [Hacc Hrest].
    cbn [submit_all].
    pose proof (scan_with_rule_accepted os rule st Hacc) as Hr.
    destruct (scan_with_rule os rule st) as [st1 r]. simpl in Hr.
    specialize (IH st1 Hrest).
    destruct (submit_all os rest st1) as [st2 futures]. simpl in *.
    constructor; [|assumption]. simpl. rewrite Hr. eexists. reflexivity.
Qed.


(** ** The dispatcher *)

Lemma find_rule_files_frame (os : OS) (st : State) :
  scanner (fst (find_rule_files os st)) = scanner st
  /\ invocations (fst (find_rule_files os st)) = invocations st
  /\ written (fst (find_rule_files os st)) = written st.
Proof.
  unfold find_rule_files.
  destruct (negb _ || negb _); simpl; repeat split.
Qed.

Lemma submit_all_scanner (os : OS) (rule_files : list string) (st : State) :
  scanner (fst (submit_all os rule_files st)) = scanner st.
Proof.
  revert st. induction rule_files as [|rule rest IH]; intro st; simpl.
  - reflexivity.
  - pose proof (scan_with_rule_scanner os rule st) as Hs.
    destruct (scan_with_rule os rule st) as [st1 r]. simpl in Hs.
    specialize (IH st1).
    destruct (submit_all os rest st1) as [st2 futures]. simpl in *.
    rewrite IH, Hs. reflexivity.
Qed.

(** The futures depend on the scanner attributes only, not on the console
    or on what was launched before. *)
Lemma submit_all_futures (os : OS) (rule_files : list string)
    (st st' : State) :
  scanner st = scanner st' ->
  snd (submit_all os rule_files st) = snd (submit_all os rule_files st').
Proof.
  revert st st'.
  induction rule_files as [|rule rest IH]; intros st st' Heq; simpl.
  - reflexivity.
  - pose proof (scan_with_rule_scanner os rule st) as Hs.
    pose proof (scan_with_rule_result os rule st) as Hr.
    pose proof (scan_with_rule_scanner os rule st') as Hs'.
    pose proof (scan_with_rule_result os rule st') as Hr'.
    destruct (scan_with_rule os rule st) as [st1 r].
    destruct (scan_with_rule os rule st') as [st1' r'].
    simpl in Hs, Hr, Hs', Hr'.
    assert (Hnext : scanner st1 = scanner st1')
      by (rewrite Hs, Hs'; exact Heq).
    specialize (IH st1 st1' Hnext).
    destruct (submit_all os rest st1) as [st2 futures].
    destruct (submit_all os rest st1') as [st2' futures'].
    simpl in *. rewrite Hr, Hr', Heq, IH. reflexivity.
Qed.

Lemma collect_results (future : Future) (st : State) :
  results (scanner (collect future st))
  = (results (scanner st) ++ returned [future])%list.
Proof.
  unfold collect, returned. destruct future as [[v|e] rule]; simpl.
  - reflexivity.
  - now rewrite app_nil_r.
Qed.

Lemma returned_app (fs gs : list Future) :
  returned (fs ++ gs) = (returned fs ++ returned gs)%list.
Proof. unfold returned. apply flat_map_app. Qed.

Lemma gather_results (completed : list Future) (st : State) :
  results (scanner (gather completed st))
  = (results (scanner st) ++ returned completed)%list.
Proof.
  unfold gather. revert st.
  induction completed as [|future rest IH]; intro st.
  - simpl. now rewrite app_nil_r.
  - cbn [fold_left]. rewrite IH, collect_results.
    change (future :: rest) with ([future] ++ rest)%list.
    now rewrite returned_app, app_assoc.
Qed.

Lemma gather_invocations (completed : list Future) (st : State) :
  invocations (gather completed st) = invocations st.
Proof.
  unfold gather. revert st.
  induction completed as [|future rest IH]; intro st; simpl.
  - reflexivity.
  - rewrite IH. unfold collect. destruct (fst future); reflexivity.
Qed.

(** What a batch does to the collected results: it appends [batch]. *)
Lemma run_scan_results (os : OS) (elapsed : string) (order : list nat)
    (st : State) :
  results (scanner (fst (run_scan os elapsed order st)))
  = (results (scanner st) ++ batch os order st)%list.
Proof.
  unfold run_scan, batch, target_missing, no_rules.
  destruct (negb (Py.truthy_opt (target_file (scanner st)))
            || negb (isfile os (Py.fmt_opt (target_file (scanner st))))).
  - simpl. now rewrite app_nil_r.
  - simpl.
    pose proof (find_rule_files_frame os st) as [Hsc _].
    destruct (find_rule_files os st) as [st1 rule_files]. simpl in *.
    destruct rule_files as [|rule rest].
    + simpl. now rewrite Hsc, app_nil_r.
    + destruct (max_workers (scanner st) <=? 0)%Z.
      * simpl. now rewrite Hsc, app_nil_r.
      * pose proof (submit_all_scanner os (rule :: rest) st1) as Hsub.
        destruct (submit_all os (rule :: rest) st1) as [st2 futures].
        simpl in *. rewrite gather_results, Hsub, Hsc. reflexivity.
Qed.

Lemma returned_nth (futures : list Future) (i : nat) :
  Forall (fun f : Future => exists v : Verdict, fst f = Returns v) futures ->
  returned (pick [i] futures) = pick [i] (returned futures).
Proof.
  intro Hall. revert i.
  induction Hall as [|[r rule] rest [v Hv] _ IH]; intro i.
  - destruct i; reflexivity.
  - simpl in Hv. subst r. destruct i as [|i]; [reflexivity|].
    exact (IH i).
Qed.

Lemma pick_cons {A : Type} (i : nat) (order : list nat) (l : list A) :
  pick (i :: order) l = (pick [i] l ++ pick order l)%list.
Proof. unfold pick. simpl. now rewrite app_nil_r. Qed.

(** When every future returns, the verdicts collected are those of the
    rules at the positions the completion order lists. *)
Lemma returned_as_completed (order : list nat) (futures : list Future) :
  Forall (fun f : Future => exists v : Verdict, fst f = Returns v) futures ->
  returned (as_completed order futures) = pick order (returned futures).
Proof.
  intro Hall. unfold as_completed.
  induction order as [|i order IH]; [reflexivity|].
  rewrite (pick_cons i order futures), (pick_cons i order (returned futures)).
  rewrite returned_app, IH, returned_nth by assumption. reflexivity.
Qed.

Lemma batch_follows_order (os : OS) (order : list nat) (st : State) :
  all_accepted os (snd (find_rule_files os st)) = true ->
  batch os order st
  = if target_missing os st || no_rules os st
       || (max_workers (scanner st) <=? 0)%Z
    then []
    else pick order (discovery_verdicts os (snd (find_rule_files os st)) st).
Proof.
  unfold batch, discovery_verdicts. intro Hall.
  destruct (target_missing os st || no_rules os st
            || (max_workers (scanner st) <=? 0)%Z); [reflexivity|].
  pose proof (find_rule_files_frame os st) as [Hsc _].
  destruct (find_rule_files os st) as [st1 rule_files]. simpl in *.
  rewrite returned_as_completed by now apply submit_all_returned.
  now rewrite (submit_all_futures os rule_files st1 st Hsc).
Qed.

Lemma pick_all_from {A : Type} (l pre : list A) :
  pick (seq (List.length pre) (List.length l)) (pre ++ l) = l.
Proof.
  revert pre. induction l as [|x l IH]; intro pre; [reflexivity|].
  cbn [List.length seq]. rewrite pick_cons. unfold pick at 1.
  cbn [flat_map]. rewrite nth_error_app2, Nat.sub_diag by apply le_n.
  cbn [nth_error]. rewrite app_nil_r. cbn [app]. f_equal.
  specialize (IH (pre ++ [x])%list).
  rewrite length_app, Nat.add_comm, <- app_assoc in IH. exact IH.
Qed.

(** A completion order that lists every position once picks every element
    once. *)
Lemma pick_permutation {A : Type} (order : list nat) (l : list A) :
  Permutation order (seq 0 (List.length l)) -> Permutation (pick order l) l.
Proof.
  intro Hperm.
  rewrite <- (pick_all_from l []) at 2.
  unfold pick. now apply Permutation_flat_map.
Qed.


(** The futures of a batch that return are as many as the rules when the
    console takes the lines of the workers. *)
Lemma discovery_length (os : OS) (rule_files : list string) (st : State) :
  all_accepted os rule_files = true ->
  List.length (discovery_verdicts os rule_files st) = List.length rule_files.
Proof.
  unfold discovery_verdicts. revert st.
  induction rule_files as [|rule rest IH]; intros st Hall; [reflexivity|].
  cbn [all_accepted forallb] in Hall.
  apply andb_true_iff in Hall as [Hacc Hrest].
  cbn [submit_all].
  pose proof (scan_with_rule_accepted os rule st Hacc) as Hr.
  destruct (scan_with_rule os rule st) as [st1 r]. simpl in Hr.
  specialize (IH st1 Hrest).
  destruct (submit_all os rest st1) as [st2 futures]. simpl in *.
  rewrite Hr. simpl. now rewrite IH.
Qed.

(** A batch that runs collects one verdict per discovered rule. *)
Lemma batch_once_per_rule (os : OS) (order : list nat) (st : State) :
  all_accepted os (snd (find_rule_files os st)) = true ->
  target_missing os st || no_rules os st
  || (max_workers (scanner st) <=? 0)%Z = false ->
  Permutation order
    (seq 0 (List.length (snd (find_rule_files os st)))) ->
  Permutation (batch os order st)
    (discovery_verdicts os (snd (find_rule_files os st)) st)
  /\ List.length (batch os order st)
     = List.length (snd (find_rule_files os st)).
Proof.
  intros Hall Hruns Hperm. rewrite (batch_follows_order os order st Hall), Hruns.
  pose proof (discovery_length os (snd (find_rule_files os st)) st Hall)
    as Hlen.
  assert (Hp : Permutation
                 (pick order
                    (discovery_verdicts os (snd (find_rule_files os st)) st))
                 (discovery_verdicts os (snd (find_rule_files os st)) st))
    by (apply pick_permutation; now rewrite Hlen).
  split; [exact Hp|].
  rewrite (Permutation_length Hp). exact Hlen.
Qed.

(** ** Failure isolation *)



(** ** The order of the report *)

Lemma sorted_results_partition (self : YaraScanner) :
  sorted_results self = stable_partition (results self).
Proof.
  unfold sorted_results, stable_partition.
  rewrite sorted_is_partition. f_equal.
  apply filter_ext. intro v. apply negb_involutive.
Qed.

(** C3, as the code has it: after a batch, the sequence the text report
    walks is the stable partition by [matches] of the collected list: every
    matched verdict before every other one, each group in the order of the
    collected list. The collected list holds (after the verdicts of earlier
    batches) the verdicts of the rules in the order their futures completed
    (every worker having printed its line, each rule has one), so the order
    within a group is completion order. The JSON report lists the collected
    list as it is. *)
Theorem report_is_partition_of_completion_order :
  forall (os : OS) (elapsed now : string) (order : list nat) (st : State),
    let self' := scanner (fst (run_scan os elapsed order st)) in
    let collected := (results (scanner st) ++ batch os order st)%list in
    results self' = collected
    /\ (all_accepted os (snd (find_rule_files os st)) = true ->
        batch os order st
        = (if target_missing os st || no_rules os st
              || (max_workers (scanner st) <=? 0)%Z
           then []
           else pick order
                  (discovery_verdicts os (snd (find_rule_files os st)) st)))
    /\ sorted_results self'
       = (filter matches collected
          ++ filter (fun v => negb (matches v)) collected)%list
    /\ output_lines self' now
       = (header_lines self' now
          ++ flat_map entry_lines (stable_partition collected))%list
    /\ Json.get "results" (output_members self' now)
       = Some (Json.Arr (map verdict_json collected)).
Proof.
  intros os elapsed now order st self' collected.
  assert (Hres : results self' = collected) by apply run_scan_results.
  split; [exact Hres|]. split; [apply batch_follows_order|]. split; [|split].
  - rewrite sorted_results_partition, Hres. reflexivity.
  - unfold output_lines. now rewrite sorted_results_partition, Hres.
  - simpl. now rewrite Hres.
Qed.

(** C3 as stated fails: with the rules [a.yar] and [b.yara], both matched,
    the report lists b before a when the future of b completes first, and a
    before b otherwise; discovery order is a, b in both runs. *)
Lemma report_order_depends_on_completion :
  let os := Example.os ["a.yar"; "b.yara"] in
  let st := Example.start "text" in
  snd (find_rule_files os st) = ["rules/a.yar"; "rules/b.yara"]
  /\ stable_partition
       (discovery_verdicts os ["rules/a.yar"; "rules/b.yara"] st)
     = [Example.verdict_a; Example.verdict_b]
  /\ sorted_results (scanner (fst (run_scan os "0.10" [1; 0] st)))
     = [Example.verdict_b; Example.verdict_a]
  /\ sorted_results (scanner (fst (run_scan os "0.10" [0; 1] st)))
     = [Example.verdict_a; Example.verdict_b]
  /\ sorted_results (scanner (fst (run_scan os "0.10" [1; 0] st)))
     <> stable_partition
          (discovery_verdicts os ["rules/a.yar"; "rules/b.yara"] st).
Proof.
  repeat split. discriminate.
Qed.

(** ** Preconditions *)


Lemma find_rule_files_console (os : OS) (st : State) :
  console (fst (find_rule_files os st))
  = (console st
     ++ [(if negb (Py.truthy_opt (rules_dir (scanner st)))
             || negb (isdir os (Py.fmt_opt (rules_dir (scanner st))))
          then "Error: Rules directory not found or not a directory: "
               ++ Py.fmt_opt (rules_dir (scanner st))
          else "Found "
               ++ Py.str_of_nat (List.length (snd (find_rule_files os st)))
               ++ " YARA rule files")%string])%list.
Proof.
  unfold find_rule_files.
  destruct (negb _ || negb _); reflexivity.
Qed.

(** What a rendering does: it leaves the scanner and the engine calls as
    they were, adds [emitted_lines] to the console and [emitted_files] to
    the files, and raises exactly when the output file cannot be opened. *)
Lemma output_results_frame (os : OS) (output_file : option string)
    (now : string) (st : State) :
  scanner (fst (output_results os output_file now st)) = scanner st
  /\ invocations (fst (output_results os output_file now st))
     = invocations st
  /\ console (fst (output_results os output_file now st))
     = (console st
        ++ emitted_lines os output_file (rendering (scanner st) now))%list
  /\ written (fst (output_results os output_file now st))
     = (emitted_files os output_file (rendering (scanner st) now)
        ++ written st)%list
  /\ exit_status (snd (output_results os output_file now st))
     = (if report_blocked os output_file then 1%Z else 0%Z).
Proof.
  unfold output_results, emitted_lines, emitted_files, report_blocked.
  destruct (Py.truthy_opt output_file); cbn [andb].
  - destruct (open_for_writing os (Py.fmt_opt output_file)); simpl;
      repeat split; now rewrite app_nil_r.
  - repeat split.
Qed.

Lemma output_results_outcome (os : OS) (output_file : option string)
    (now : string) (st st' : State) :
  snd (output_results os output_file now st)
  = snd (output_results os output_file now st').
Proof.
  unfold output_results.
  destruct (Py.truthy_opt output_file); [|reflexivity].
  destruct (open_for_writing os (Py.fmt_opt output_file)); reflexivity.
Qed.




(** ** Rendering *)

(** C7, as the code has it: a rendering leaves the scanner and its
    collected verdicts as they were, and a second rendering in the same
    mode that reads the same clock value emits the same text as the first
    (and ends as the first did). (The text holds the clock value read by
    the rendering.) *)
Theorem rendering_twice_at_one_clock_value :
  forall (os : OS) (output_file : option string) (now : string)
         (st : State),
    let st1 := fst (output_results os output_file now st) in
    let st2 := fst (output_results os output_file now st1) in
    let text := rendering (scanner st) now in
    scanner st1 = scanner st
    /\ scanner st2 = scanner st
    /\ console st2
       = (console st ++ emitted_lines os output_file text
          ++ emitted_lines os output_file text)%list
    /\ written st2
       = (emitted_files os output_file text
          ++ emitted_files os output_file text ++ written st)%list
    /\ snd (output_results os output_file now st1)
       = snd (output_results os output_file now st).
Proof.
  intros os output_file now st st1 st2 text.
  destruct (output_results_frame os output_file now st)
    as [Hs [_ [Hc [Hw _]]]].
  destruct (output_results_frame os output_file now st1)
    as [Hs' [_ [Hc' [Hw' _]]]].
  fold st1 in Hs, Hc, Hw. fold st2 in Hs', Hc', Hw'.
  rewrite Hs in Hs', Hc', Hw'. fold text in Hc, Hw, Hc', Hw'.
  repeat split.
  - exact Hs.
  - exact Hs'.
  - rewrite Hc', Hc, <- app_assoc. reflexivity.
  - rewrite Hw', Hw. reflexivity.
  - apply output_results_outcome.
Qed.

(** C7 as stated fails: two renderings of the same collected verdicts, a
    few seconds apart, differ (in the scan time they show), in text mode and
    in JSON mode alike; the verdicts are the same before both. *)
Lemma rendering_twice_differs :
  let st (format : string) :=
    fst (run_scan (Example.os Example.all_rules) "0.42" [4; 0; 3; 1; 2]
                  (Example.start format)) in
  let first (format : string) :=
    fst (output_results (Example.os Example.all_rules) None
                        "2024-05-01T10:00:00" (st format)) in
  let second (format : string) :=
    fst (output_results (Example.os Example.all_rules) None
                        "2024-05-01T10:00:07" (first format)) in
  scanner (first "text") = scanner (st "text")
  /\ scanner (first "json") = scanner (st "json")
  /\ last (console (first "text")) EmptyString
     <> last (console (second "text")) EmptyString
  /\ last (console (first "json")) EmptyString
     <> last (console (second "json")) EmptyString.
Proof.
  repeat split; vm_compute; discriminate.
Qed.

Lemma entry_lines_spec (v : Verdict) : entry_lines v = spec_block v.
Proof.
  unfold entry_lines, spec_block.
  destruct (matches v); [reflexivity|].
  destruct (error v) as [[|c e]|]; reflexivity.
Qed.

Lemma stable_partition_perm (l : list Verdict) :
  Permutation (stable_partition l) l.
Proof.
  unfold stable_partition. induction l as [|v l IH]; simpl.
  - constructor.
  - destruct (matches v); simpl.
    + now constructor.
    + symmetry. apply Permutation_cons_app. now symmetry.
Qed.

Lemma length_flat_map_entry_lines (l : list Verdict) :
  List.length (flat_map entry_lines l)
  = 3 * List.length (filter matches l)
    + List.length (filter errored_nonmatch l).
Proof.
  induction l as [|v l IH]; [reflexivity|].
  cbn [flat_map filter]. rewrite length_app, IH.
  unfold entry_lines, errored_nonmatch.
  destruct (matches v), (Py.truthy_opt (error v)); simpl; lia.
Qed.

Lemma filter_length_perm (p : Verdict -> bool) [l l' : list Verdict] :
  Permutation l l' ->
  List.length (filter p l) = List.length (filter p l').
Proof.
  induction 1 as [|x l l' _ IH|x y l|l l' l'' _ IH1 _ IH2]; simpl.
  - reflexivity.
  - destruct (p x); simpl; congruence.
  - destruct (p x), (p y); reflexivity.
  - congruence.
Qed.

(** C8: the text rendering is the header followed, for the verdicts in
    report order (each collected verdict once), by a block of three lines
    with the engine output for a match, one line naming rule and error for a
    non-match with an error description, and nothing for the other
    non-matches: three lines per match and one per errored non-match in
    all. *)
Theorem text_rendering_blocks :
  forall (self : YaraScanner) (now : string),
    output_text self now
    = Py.join newline
        (header_lines self now
         ++ flat_map spec_block (stable_partition (results self)))
    /\ Permutation (stable_partition (results self)) (results self)
    /\ List.length (output_lines self now)
       = 8 + 3 * List.length (filter matches (results self))
         + List.length (filter errored_nonmatch (results self)).
Proof.
  intros self now. split; [|split].
  - unfold output_text, output_lines.
    rewrite sorted_results_partition. do 2 f_equal.
    apply flat_map_ext. intro v. apply entry_lines_spec.
  - apply stable_partition_perm.
  - unfold output_lines. rewrite length_app, length_flat_map_entry_lines.
    rewrite sorted_results_partition.
    rewrite (filter_length_perm matches (stable_partition_perm (results self))).
    rewrite (filter_length_perm errored_nonmatch
               (stable_partition_perm (results self))).
    simpl. lia.
Qed.

(** ** The collected results *)

Lemma total_rules_shown (self : YaraScanner) (now : string) :
  Json.get "total_rules" (output_members self now)
  = Some (Json.Int (Z.of_nat (List.length (results self))))
  /\ nth 5 (header_lines self now) EmptyString
     = "Total Rules: " ++ Py.str_of_nat (List.length (results self)).
Proof. split; reflexivity. Qed.

(** C9: the results list is empty at construction and a batch only appends
    to it, so after two batches it holds what it held before, then the
    verdicts of the first batch, then those of the second; the total both
    renderings show after the second batch counts all of them. *)
Theorem results_accumulate_over_batches :
  forall (os1 os2 : OS) (elapsed1 elapsed2 now : string)
         (order1 order2 : list nat) (st : State),
    let st1 := fst (run_scan os1 elapsed1 order1 st) in
    let st2 := fst (run_scan os2 elapsed2 order2 st1) in
    let total :=
      List.length (results (scanner st))
      + List.length (batch os1 order1 st)
      + List.length (batch os2 order2 st1) in
    (forall (y : string) (r t : option string) (f : string) (w s : Z),
        results (init y r t f w s) = [])
    /\ results (scanner st1)
       = (results (scanner st) ++ batch os1 order1 st)%list
    /\ results (scanner st2)
       = (results (scanner st) ++ batch os1 order1 st
          ++ batch os2 order2 st1)%list
    /\ Json.get "total_rules" (output_members (scanner st2) now)
       = Some (Json.Int (Z.of_nat total))
    /\ nth 5 (header_lines (scanner st2) now) EmptyString
       = "Total Rules: " ++ Py.str_of_nat total.
Proof.
  intros os1 os2 elapsed1 elapsed2 now order1 order2 st st1 st2 total.
  assert (H1 : results (scanner st1)
               = (results (scanner st) ++ batch os1 order1 st)%list)
    by apply run_scan_results.
  assert (H2 : results (scanner st2)
               = (results (scanner st) ++ batch os1 order1 st
                  ++ batch os2 order2 st1)%list).
  { unfold st2. rewrite run_scan_results. fold st1.
    rewrite H1, <- app_assoc. reflexivity. }
  assert (Hlen : List.length (results (scanner st2)) = total).
  { rewrite H2, !length_app. unfold total. lia. }
  split; [reflexivity|]. split; [exact H1|]. split; [exact H2|].
  rewrite <- Hlen. apply total_rules_shown.
Qed.




(** ** The example system, run *)

Module ExampleRuns.
Import Example.

Lemma scan_a :
  snd (scan_with_rule (os all_rules) "rules/a.yar" (start "text"))
  = Returns verdict_a.
Proof. reflexivity. Qed.

Lemma scan_d :
  snd (scan_with_rule (os all_rules) "rules/d.yar" (start "text"))
  = Returns verdict_d.
Proof. reflexivity. Qed.

Lemma scan_e :
  snd (scan_with_rule (os all_rules) "rules/e.yar" (start "text"))
  = Returns verdict_e.
Proof. reflexivity. Qed.

Lemma discovery :
  snd (find_rule_files (os all_rules) (start "text"))
  = ["rules/a.yar"; "rules/b.yara"; "rules/c.yar"; "rules/d.yar";
     "rules/e.yar"].
Proof. reflexivity. Qed.

(** A batch whose futures complete in the order e, a, d, b, c. *)
Lemma batch_results :
  results (scanner (fst (run_scan (os all_rules) "0.42" [4; 0; 3; 1; 2]
                                  (start "text"))))
  = [verdict_e; verdict_a; verdict_d; verdict_b; verdict_c].
Proof. reflexivity. Qed.

(** The body of the text report of that batch: the two matches, then the
    two non-matches with an error; [d.yar] is not shown. *)
Lemma batch_text_body :
  skipn 8 (output_lines
             (scanner (fst (run_scan (os all_rules) "0.42" [4; 0; 3; 1; 2]
                                     (start "text"))))
             "2024-05-01T10:00:00")
  = ["[+] MATCH: a.yar"; "rule_a sample.bin";
     "-------------------------------------";
     "[+] MATCH: b.yara"; "rule_b sample.bin";
     "-------------------------------------";
     "[!] ERROR: e.yar - Permission denied";
     "[!] ERROR: c.yar - Timeout after 30 seconds"].
Proof. reflexivity. Qed.

(** Two batches on one scanner: five rules, ten collected verdicts. *)
Lemma two_batches_total :
  let st1 := fst (run_scan (os all_rules) "0.42" [4; 0; 3; 1; 2]
                           (start "text")) in
  let st2 := fst (run_scan (os all_rules) "0.40" [0; 1; 2; 3; 4] st1) in
  nth 5 (header_lines (scanner st2) "2024-05-01T10:00:00") EmptyString
  = "Total Rules: 10"
  /\ last (console st2) EmptyString
     = "Found 4 matching rules out of 5 total rules".
Proof. split; reflexivity. Qed.

(** A future that raises leaves no verdict: two futures, one collected. *)
Lemma raising_future_dropped :
  let st := gather [(Returns verdict_a, "rules/a.yar");
                    (Raises (OtherException "boom"), "rules/b.yara")]
                   (start "text") in
  results (scanner st) = [verdict_a]
  /\ console st = ["Error processing rule rules/b.yara: boom"]
  /\ nth 5 (header_lines (scanner st) "2024-05-01T10:00:00") EmptyString
     = "Total Rules: 1".
Proof. repeat split. Qed.

(** A worker count of zero ends [main] with an exception. *)
Lemma zero_workers_raise :
  exit_status
    (snd (main (os all_rules)
               (mkArgs "rules" "sample.bin" "yara64.exe" None "text" 0 20)
               "0.00" "2024-05-01T10:00:00" []))
  = 1%Z.
Proof. reflexivity. Qed.

(** A missing target with an output path below a directory that is not
    there: the error line, no report, exit status 1. *)
Lemma missing_target_unwritable_output :
  let final :=
    main (os all_rules)
         (mkArgs "rules" "missing.bin" "yara64.exe"
                 (Some "nodir/report.txt") "text" 4 20)
         "0.00" "2024-05-01T10:00:00" [] in
  console (fst final) = ["Error: Target file not found: missing.bin"]
  /\ written (fst final) = []
  /\ exit_status (snd final) = 1%Z.
Proof. repeat split. Qed.

(** A directory given as output path is not written to. *)
Lemma directory_as_output :
  output_results (os all_rules) (Some "rules") "2024-05-01T10:00:00"
                 (start "text")
  = (start "text",
     Raises (OtherException "[Errno 21] Is a directory: 'rules'")).
Proof. reflexivity. Qed.

(** A report saved to a file: one line on the console, exit status 0. *)
Lemma report_saved :
  let final :=
    main (os all_rules)
         (mkArgs "rules" "sample.bin" "yara64.exe" (Some "report.txt")
                 "text" 4 20)
         "0.42" "2024-05-01T10:00:00" [4; 0; 3; 1; 2] in
  last (console (fst final)) EmptyString = "Results saved to report.txt"
  /\ read_file "report.txt" (written (fst final))
     = Some (output_text (scanner (fst final)) "2024-05-01T10:00:00")
  /\ exit_status (snd final) = 0%Z.
Proof. repeat split. Qed.

End ExampleRuns.

(** * Further properties of the scanner *)

(** ** Strings *)

Lemma list_ascii_app (a b : string) :
  list_ascii_of_string (a ++ b)
  = (list_ascii_of_string a ++ list_ascii_of_string b)%list.
Proof.
  induction a as [|c a IH]; simpl; [reflexivity|]. now rewrite IH.
Qed.

Lemma string_of_list_app (a b : list ascii) :
  string_of_list_ascii (a ++ b)
  = string_of_list_ascii a ++ string_of_list_ascii b.
Proof.
  induction a as [|c a IH]; simpl; [reflexivity|]. now rewrite IH.
Qed.

Lemma reverse_app (a b : string) :
  Py.reverse (a ++ b) = Py.reverse b ++ Py.reverse a.
Proof.
  unfold Py.reverse.
  now rewrite list_ascii_app, rev_app_distr, string_of_list_app.
Qed.

Lemma reverse_involutive (s : string) : Py.reverse (Py.reverse s) = s.
Proof.
  unfold Py.reverse.
  now rewrite list_ascii_of_string_of_list_ascii, rev_involutive,
    string_of_list_ascii_of_string.
Qed.

Lemma prefix_iff (p s : string) :
  prefix p s = true <-> exists rest : string, s = p ++ rest.
Proof.
  revert s. induction p as [|c p IH]; intro s; simpl.
  - split; [intros _; now exists s | intros _; now destruct s].
  - destruct s as [|d s].
    + split; [discriminate | intros [rest H]; discriminate H].
    + simpl. destruct (ascii_dec c d) as [->|Hcd].
      * rewrite IH. split; intros [rest H]; exists rest.
        -- now rewrite H.
        -- now injection H.
      * split; [discriminate|]. intros [rest H]. injection H as Hd _.
        now elim Hcd.
Qed.

(** [s.endswith(suffix)] holds exactly of the strings [stem ++ suffix]. *)
Lemma endswith_iff (s suffix : string) :
  Py.endswith s suffix = true <-> exists stem : string, s = stem ++ suffix.
Proof.
  unfold Py.endswith. rewrite prefix_iff. split.
  - intros [rest H]. exists (Py.reverse rest).
    rewrite <- (reverse_involutive s), H, reverse_app.
    now rewrite reverse_involutive.
  - intros [stem ->]. exists (Py.reverse stem). apply reverse_app.
Qed.

(** ** Rule discovery *)

(** X1: when the rules directory is there, [find_rule_files] returns
    exactly the joined paths of the files of the walk whose name ends in
    [.yar] or [.yara], and the line it prints carries their number. *)
Theorem find_rule_files_finds_rules :
  forall (os : OS) (st : State) (path : string),
    rules_dir_found os st = true ->
    (In path (snd (find_rule_files os st))
     <-> exists (root : string) (files : list string) (stem : string),
           In (root, files)
              (walk os (Py.fmt_opt (rules_dir (scanner st))))
           /\ (In (stem ++ ".yar") files
               /\ path = path_join os root (stem ++ ".yar")
               \/ In (stem ++ ".yara") files
                  /\ path = path_join os root (stem ++ ".yara")))
    /\ console (fst (find_rule_files os st))
       = (console st
          ++ [("Found "
               ++ Py.str_of_nat (List.length (snd (find_rule_files os st)))
               ++ " YARA rule files")%string])%list.
Proof.
  intros os st path Hdir. unfold rules_dir_found in Hdir.
  apply andb_true_iff in Hdir as [Ht Hd].
  unfold find_rule_files. rewrite Ht, Hd. simpl. split; [|reflexivity].
  rewrite in_flat_map. split.
  - intros [[root files] [Hwalk Hin]]. simpl in Hin.
    apply in_map_iff in Hin as [file [Hpath Hfile]].
    apply filter_In in Hfile as [Hfile Hrule].
    unfold is_rule_name in Hrule. apply orb_true_iff in Hrule.
    destruct Hrule as [Hrule|Hrule];
      apply endswith_iff in Hrule as [stem ->];
      exists root, files, stem; (split; [exact Hwalk|]).
    + left. split; [exact Hfile | now symmetry].
    + right. split; [exact Hfile | now symmetry].
  - intros [root [files [stem [Hwalk Hcase]]]].
    exists (root, files). split; [exact Hwalk|]. simpl.
    apply in_map_iff.
    destruct Hcase as [[Hfile ->]|[Hfile ->]].
    + exists (stem ++ ".yar"). split; [reflexivity|].
      apply filter_In. split; [exact Hfile|].
      unfold is_rule_name. apply orb_true_iff. left.
      apply endswith_iff. now exists stem.
    + exists (stem ++ ".yara"). split; [reflexivity|].
      apply filter_In. split; [exact Hfile|].
      unfold is_rule_name. apply orb_true_iff. right.
      apply endswith_iff. now exists stem.
Qed.

Lemma find_rule_files_finds_rules_witness :
  (In "rules/b.yara"
      (snd (find_rule_files (Example.os Example.all_rules)
                            (Example.start "text")))
   <-> exists (root : string) (files : list string) (stem : string),
         In (root, files) [("rules", Example.all_rules)]
         /\ (In (stem ++ ".yar") files
             /\ "rules/b.yara" = Example.posix_join root (stem ++ ".yar")
             \/ In (stem ++ ".yara") files
                /\ "rules/b.yara"
                   = Example.posix_join root (stem ++ ".yara")))
  /\ console (fst (find_rule_files (Example.os Example.all_rules)
                                   (Example.start "text")))
     = ["Found 5 YARA rule files"].
Proof.
  apply (find_rule_files_finds_rules
           (Example.os Example.all_rules) (Example.start "text")
           "rules/b.yara").
  reflexivity.
Defined.

(** ** Trimming *)

Lemma lstrip_no_leading_space (s : string) :
  starts_with_space (Py.lstrip s) = false.
Proof.
  induction s as [|c s IH]; simpl; [reflexivity|].
  destruct (Py.isspace c) eqn:Hc; [exact IH|]. simpl. exact Hc.
Qed.

Lemma lstrip_split (s : string) :
  exists lead : string, s = lead ++ Py.lstrip s /\ all_space lead = true.
Proof.
  induction s as [|c s [lead [Hs Hlead]]]; simpl.
  - now exists EmptyString.
  - destruct (Py.isspace c) eqn:Hc.
    + exists (String c lead). simpl. split; [now rewrite <- Hs|].
      unfold all_space in *. simpl. now rewrite Hc.
    + now exists EmptyString.
Qed.

Lemma lstrip_fixed (s : string) :
  starts_with_space s = false -> Py.lstrip s = s.
Proof.
  destruct s as [|c s]; simpl; [reflexivity|]. now intros ->.
Qed.

Lemma all_space_reverse (s : string) :
  all_space (Py.reverse s) = all_space s.
Proof.
  unfold all_space, Py.reverse.
  rewrite list_ascii_of_string_of_list_ascii.
  induction (list_ascii_of_string s) as [|c l IH]; [reflexivity|].
  simpl. rewrite forallb_app, IH. simpl.
  destruct (Py.isspace c), (forallb Py.isspace l); reflexivity.
Qed.

Lemma rstrip_split (s : string) :
  exists trail : string, s = Py.rstrip s ++ trail /\ all_space trail = true.
Proof.
  destruct (lstrip_split (Py.reverse s)) as [lead [Hs Hlead]].
  exists (Py.reverse lead). split.
  - unfold Py.rstrip. rewrite <- reverse_app, <- Hs.
    now rewrite reverse_involutive.
  - now rewrite all_space_reverse.
Qed.

Lemma rstrip_no_trailing_space (s : string) :
  ends_with_space (Py.rstrip s) = false.
Proof.
  unfold ends_with_space, Py.rstrip. rewrite reverse_involutive.
  apply lstrip_no_leading_space.
Qed.

Lemma rstrip_fixed (s : string) :
  ends_with_space s = false -> Py.rstrip s = s.
Proof.
  unfold ends_with_space, Py.rstrip. intro H.
  now rewrite lstrip_fixed, reverse_involutive.
Qed.

Lemma starts_with_space_prefix (a b : string) :
  starts_with_space (a ++ b) = false -> starts_with_space a = false.
Proof. destruct a as [|c a]; [reflexivity | exact (fun H => H)]. Qed.

(** What [strip] returns: the string without a run of whitespace at its
    start and one at its end, with whitespace at neither end, and left
    alone by a second [strip]. *)
Lemma strip_spec (s : string) :
  (exists lead trail : string,
      s = lead ++ Py.strip s ++ trail
      /\ all_space lead = true /\ all_space trail = true)
  /\ starts_with_space (Py.strip s) = false
  /\ ends_with_space (Py.strip s) = false
  /\ Py.strip (Py.strip s) = Py.strip s.
Proof.
  destruct (lstrip_split s) as [lead [Hs Hlead]].
  destruct (rstrip_split (Py.lstrip s)) as [trail [Ht Htrail]].
  assert (Hstart : starts_with_space (Py.strip s) = false).
  { apply (starts_with_space_prefix _ trail). unfold Py.strip.
    rewrite <- Ht. apply lstrip_no_leading_space. }
  assert (Hend : ends_with_space (Py.strip s) = false)
    by apply rstrip_no_trailing_space.
  split; [|split; [exact Hstart | split; [exact Hend|]]].
  - exists lead, trail. unfold Py.strip. rewrite <- Ht.
    now repeat split.
  - unfold Py.strip at 1. rewrite (lstrip_fixed _ Hstart).
    now apply rstrip_fixed.
Qed.

(** ** Verdicts *)

(** X2: whatever the engine call does (the worker having printed its
    line), the verdict names the rule it was made for, is matched exactly
    when its stdout field is not empty, and its error, when set, is its
    stderr field (which is empty when the error is not set). *)
Theorem verdict_fields_agree :
  forall (os : OS) (rule : string) (st : State),
    accepted os (scan_banner os rule) = true ->
    exists v : Verdict,
      snd (scan_with_rule os rule st) = Returns v
      /\ rule_file v = rule
      /\ rule_name v = basename os rule
      /\ (matches v = true <-> stdout v <> EmptyString)
      /\ stderr v = match error v with
                    | Some e => e
                    | None => EmptyString
                    end.
Proof.
  intros os rule st Hacc.
  rewrite (scan_with_rule_accepted os rule st Hacc).
  eexists; split; [reflexivity|]. unfold engine_verdict.
  destruct (subprocess_run os _ _) as [result|[m|m]]; simpl.
  - repeat split; try (rewrite eqb_empty_truthy; apply truthy_iff).
    destruct (Py.strip (cp_stderr result)); reflexivity.
  - repeat split; intro H; [discriminate | now elim H].
  - repeat split; intro H; [discriminate | now elim H].
Qed.

Lemma verdict_fields_agree_witness :
  exists v : Verdict,
    snd (scan_with_rule (Example.os Example.all_rules) "rules/c.yar"
                        (Example.start "text")) = Returns v
    /\ rule_file v = "rules/c.yar"
    /\ rule_name v = "c.yar"
    /\ (matches v = true <-> stdout v <> EmptyString)
    /\ stderr v = match error v with
                  | Some e => e
                  | None => EmptyString
                  end.
Proof.
  apply (verdict_fields_agree
           (Example.os Example.all_rules) "rules/c.yar"
           (Example.start "text")).
  reflexivity.
Defined.

(** X3: on a completed engine process (the worker having printed its
    line) the stdout and stderr fields of the verdict are the captured texts without the whitespace at their two
    ends: what was cut off is whitespace only, neither field begins or ends
    with whitespace, and trimming a field again changes nothing. *)
Theorem completed_verdict_streams_trimmed :
  forall (os : OS) (rule : string) (st : State) (result : CompletedProcess),
    accepted os (scan_banner os rule) = true ->
    subprocess_run os (command (scanner st) rule) (timeout (scanner st))
    = Returns result ->
    exists v : Verdict,
      snd (scan_with_rule os rule st) = Returns v
      /\ (exists lead trail : string,
             cp_stdout result = lead ++ stdout v ++ trail
             /\ all_space lead = true /\ all_space trail = true)
      /\ (exists lead trail : string,
             cp_stderr result = lead ++ stderr v ++ trail
             /\ all_space lead = true /\ all_space trail = true)
      /\ starts_with_space (stdout v) = false
      /\ ends_with_space (stdout v) = false
      /\ starts_with_space (stderr v) = false
      /\ ends_with_space (stderr v) = false
      /\ Py.strip (stdout v) = stdout v
      /\ Py.strip (stderr v) = stderr v.
Proof.
  intros os rule st result Hacc Hrun.
  rewrite (scan_with_rule_accepted os rule st Hacc).
  unfold engine_verdict. rewrite Hrun.
  eexists; split; [reflexivity|]. simpl.
  destruct (strip_spec (cp_stdout result)) as [Ho1 [Ho2 [Ho3 Ho4]]].
  destruct (strip_spec (cp_stderr result)) as [He1 [He2 [He3 He4]]].
  repeat split; assumption.
Qed.

Lemma completed_verdict_streams_trimmed_witness :
  exists v : Verdict,
    snd (scan_with_rule (Example.os Example.all_rules) "rules/b.yara"
                        (Example.start "text")) = Returns v
    /\ (exists lead trail : string,
           "rule_b sample.bin" ++ newline = lead ++ stdout v ++ trail
           /\ all_space lead = true /\ all_space trail = true)
    /\ (exists lead trail : string,
           "warning: slow rule" ++ newline = lead ++ stderr v ++ trail
           /\ all_space lead = true /\ all_space trail = true)
    /\ starts_with_space (stdout v) = false
    /\ ends_with_space (stdout v) = false
    /\ starts_with_space (stderr v) = false
    /\ ends_with_space (stderr v) = false
    /\ Py.strip (stdout v) = stdout v
    /\ Py.strip (stderr v) = stderr v.
Proof.
  apply (completed_verdict_streams_trimmed
           (Example.os Example.all_rules) "rules/b.yara"
           (Example.start "text")
           (mkCompleted ("rule_b sample.bin" ++ newline)
                        ("warning: slow rule" ++ newline) 1)).
  - reflexivity.
  - reflexivity.
Defined.

(** X4: when the engine call raises an exception that is not a timeout (it
    cannot be launched, say; the worker having printed its line), the verdict is not matched, has the exit
    status -1 and an empty stdout, and carries the text of the exception as
    stderr and as error; the text report has a line for it unless that text
    is empty. *)
Theorem scan_with_rule_launch_failure :
  forall (os : OS) (rule : string) (st : State) (msg : string),
    accepted os (scan_banner os rule) = true ->
    subprocess_run os (command (scanner st) rule) (timeout (scanner st))
    = Raises (OtherException msg) ->
    exists v : Verdict,
      snd (scan_with_rule os rule st) = Returns v
      /\ matches v = false
      /\ return_code v = (-1)%Z
      /\ stdout v = EmptyString
      /\ stderr v = msg
      /\ error v = Some msg
      /\ entry_lines v
         = if Py.truthy msg
           then ["[!] ERROR: " ++ basename os rule ++ " - " ++ msg]
           else [].
Proof.
  intros os rule st msg Hacc Hrun.
  rewrite (scan_with_rule_accepted os rule st Hacc).
  unfold engine_verdict. rewrite Hrun.
  eexists; split; [reflexivity|]. repeat split.
Qed.

Lemma scan_with_rule_launch_failure_witness :
  exists v : Verdict,
    snd (scan_with_rule (Example.os Example.all_rules) "rules/e.yar"
                        (Example.start "text")) = Returns v
    /\ matches v = false
    /\ return_code v = (-1)%Z
    /\ stdout v = EmptyString
    /\ stderr v = "Permission denied"
    /\ error v = Some "Permission denied"
    /\ entry_lines v = ["[!] ERROR: e.yar - Permission denied"].
Proof.
  apply (scan_with_rule_launch_failure
           (Example.os Example.all_rules) "rules/e.yar"
           (Example.start "text") "Permission denied").
  - reflexivity.
  - reflexivity.
Defined.

(** ** The batch as a whole *)

Lemma submit_all_written (os : OS) (rule_files : list string) (st : State) :
  written (fst (submit_all os rule_files st)) = written st.
Proof.
  revert st. induction rule_files as [|rule rest IH]; intro st; simpl.
  - reflexivity.
  - pose proof (scan_with_rule_state os rule st) as Hs.
    destruct (scan_with_rule os rule st) as [st1 r]. simpl in Hs.
    specialize (IH st1).
    destruct (submit_all os rest st1) as [st2 futures]. simpl in *.
    rewrite IH, Hs. destruct (worker_print os _); reflexivity.
Qed.

Lemma submit_all_invocations (os : OS) (rule_files : list string)
    (st : State) :
  all_accepted os rule_files = true ->
  invocations (fst (submit_all os rule_files st))
  = (invocations st ++ map (command (scanner st)) rule_files)%list.
Proof.
  revert st. induction rule_files as [|rule rest IH]; intros st Hall.
  - simpl. now rewrite app_nil_r.
  - cbn [all_accepted forallb] in Hall.
    apply andb_true_iff in Hall as [Hacc Hrest].
    cbn [submit_all map].
    pose proof (scan_with_rule_state os rule st) as Hs.
    unfold accepted in Hacc.
    destruct (worker_print os (scan_banner os rule)); [discriminate|].
    destruct (scan_with_rule os rule st) as [st1 r]. simpl in Hs.
    specialize (IH st1 Hrest).
    destruct (submit_all os rest st1) as [st2 futures]. simpl in *.
    rewrite IH, Hs. simpl. now rewrite <- app_assoc.
Qed.

Lemma engine_verdict_rule_file (os : OS) (self : YaraScanner)
    (rule : string) :
  rule_file (engine_verdict os self rule) = rule.
Proof.
  unfold engine_verdict.
  destruct (subprocess_run os _ _) as [result|[m|m]]; reflexivity.
Qed.

Lemma submit_all_rule_files (os : OS) (rule_files : list string)
    (st : State) :
  all_accepted os rule_files = true ->
  map rule_file (returned (snd (submit_all os rule_files st))) = rule_files.
Proof.
  revert st. induction rule_files as [|rule rest IH]; intros st Hall.
  - reflexivity.
  - cbn [all_accepted forallb] in Hall.
    apply andb_true_iff in Hall as [Hacc Hrest].
    cbn [submit_all].
    pose proof (scan_with_rule_accepted os rule st Hacc) as Hr.
    destruct (scan_with_rule os rule st) as [st1 r]. simpl in Hr.
    specialize (IH st1 Hrest).
    destruct (submit_all os rest st1) as [st2 futures]. simpl in *.
    rewrite Hr. simpl. rewrite IH. f_equal.
    apply engine_verdict_rule_file.
Qed.

Lemma gather_frame (completed : list Future) (st : State) :
  configuration (scanner (gather completed st)) = configuration (scanner st)
  /\ written (gather completed st) = written st.
Proof.
  unfold gather. revert st.
  induction completed as [|future rest IH]; intro st.
  - split; reflexivity.
  - cbn [fold_left]. destruct (IH (collect future st)) as [Hc Hw].
    rewrite Hc, Hw. unfold collect.
    destruct (fst future); split; reflexivity.
Qed.

(** The state a batch that runs ends in. *)
Lemma run_scan_when_runs (os : OS) (elapsed : string) (order : list nat)
    (st : State) :
  batch_runs os st = true ->
  let rule_files := snd (find_rule_files os st) in
  let submitted := submit_all os rule_files (fst (find_rule_files os st)) in
  let collected := gather (as_completed order (snd submitted))
                          (fst submitted) in
  run_scan os elapsed order st
  = (print ("Found "
            ++ Py.str_of_nat
                 (List.length (filter matches (results (scanner collected))))
            ++ " matching rules out of "
            ++ Py.str_of_nat (List.length rule_files) ++ " total rules")
       (print (newline ++ "Completed scan in " ++ elapsed ++ " seconds")
              collected),
     Returns tt).
Proof.
  unfold batch_runs, run_scan, target_missing, no_rules.
  destruct (negb (Py.truthy_opt (target_file (scanner st)))
            || negb (isfile os (Py.fmt_opt (target_file (scanner st))))).
  - discriminate.
  - cbn [orb].
    destruct (find_rule_files os st) as [st1 rule_files]. cbn [snd fst].
    destruct rule_files as [|rule rest]; [discriminate|]. cbn [orb].
    destruct (max_workers (scanner st) <=? 0)%Z; [discriminate|].
    intros _.
    destruct (submit_all os (rule :: rest) st1) as [st2 futures].
    reflexivity.
Qed.

(** X5: a batch that runs launches one engine call per discovered rule
    (every worker having printed its line), each with the executable, the
    flags [-s], [-m], [-g], the rule and the target in that order, whatever
    order the futures complete in. *)
Theorem run_scan_one_call_per_rule :
  forall (os : OS) (elapsed : string) (order : list nat) (st : State),
    batch_runs os st = true ->
    all_accepted os (snd (find_rule_files os st)) = true ->
    exists launched : list argv,
      invocations (fst (run_scan os elapsed order st))
      = (invocations st ++ launched)%list
      /\ Permutation launched
           (map (fun rule =>
                   [Some (yara_path (scanner st)); Some "-s"; Some "-m";
                    Some "-g"; Some rule; target_file (scanner st)])
                (snd (find_rule_files os st)))
      /\ List.length launched
         = List.length (snd (find_rule_files os st)).
Proof.
  intros os elapsed order st Hruns Hall.
  rewrite (run_scan_when_runs os elapsed order st Hruns). cbn [fst].
  exists (map (command (scanner st)) (snd (find_rule_files os st))).
  split; [|split].
  - cbn [print invocations]. rewrite gather_invocations.
    rewrite (submit_all_invocations os (snd (find_rule_files os st))
               (fst (find_rule_files os st)) Hall).
    destruct (find_rule_files_frame os st) as [Hsc [Hi _]].
    now rewrite Hsc, Hi.
  - apply Permutation_refl.
  - apply length_map.
Qed.

Lemma run_scan_one_call_per_rule_witness :
  exists launched : list argv,
    invocations (fst (run_scan (Example.os Example.all_rules) "0.42"
                               [4; 0; 3; 1; 2] (Example.start "text")))
    = ([] ++ launched)%list
    /\ Permutation launched
         (map (fun rule =>
                 [Some "yara64.exe"; Some "-s"; Some "-m"; Some "-g";
                  Some rule; Some "sample.bin"])
              ["rules/a.yar"; "rules/b.yara"; "rules/c.yar"; "rules/d.yar";
               "rules/e.yar"])
    /\ List.length launched = 5.
Proof.
  apply (run_scan_one_call_per_rule
           (Example.os Example.all_rules) "0.42" [4; 0; 3; 1; 2]
           (Example.start "text")).
  - reflexivity.
  - reflexivity.
Defined.

(** X6: [run_scan] changes nothing of the scanner but its collected
    results, writes no file, and keeps the results it found as the start of
    the new list. *)
Theorem run_scan_keeps_configuration :
  forall (os : OS) (elapsed : string) (order : list nat) (st : State),
    configuration (scanner (fst (run_scan os elapsed order st)))
    = configuration (scanner st)
    /\ written (fst (run_scan os elapsed order st)) = written st
    /\ firstn (List.length (results (scanner st)))
              (results (scanner (fst (run_scan os elapsed order st))))
       = results (scanner st).
Proof.
  intros os elapsed order st.
  assert (Hfirst :
            firstn (List.length (results (scanner st)))
                   (results (scanner (fst (run_scan os elapsed order st))))
            = results (scanner st)).
  { rewrite run_scan_results, firstn_app, Nat.sub_diag, firstn_all.
    cbn [firstn]. apply app_nil_r. }
  destruct (find_rule_files_frame os st) as [Hsc [_ Hwr]].
  destruct (batch_runs os st) eqn:Hruns.
  - rewrite (run_scan_when_runs os elapsed order st Hruns) in *.
    cbn [fst print scanner written] in *.
    destruct (gather_frame
                (as_completed order
                   (snd (submit_all os (snd (find_rule_files os st))
                           (fst (find_rule_files os st)))))
                (fst (submit_all os (snd (find_rule_files os st))
                        (fst (find_rule_files os st))))) as [Hc Hw].
    rewrite Hc, Hw, submit_all_scanner, Hsc.
    rewrite submit_all_written, Hwr. repeat split. exact Hfirst.
  - clear Hfirst.
    assert (Hstate :
              (scanner (fst (run_scan os elapsed order st)) = scanner st
               /\ written (fst (run_scan os elapsed order st)) = written st)).
    { unfold batch_runs, target_missing, no_rules in Hruns.
      unfold run_scan.
      destruct (negb (Py.truthy_opt (target_file (scanner st)))
                || negb (isfile os
                           (Py.fmt_opt (target_file (scanner st))))).
      - split; reflexivity.
      - cbn [orb] in Hruns.
        destruct (find_rule_files os st) as [st1 rule_files].
        cbn [snd fst] in *.
        destruct rule_files as [|rule rest]; [now split|].
        cbn [orb negb] in Hruns.
        destruct (max_workers (scanner st) <=? 0)%Z; [now split|].
        discriminate. }
    destruct Hstate as [Hs Hw]. rewrite Hs, Hw.
    repeat split. apply firstn_all.
Qed.

Lemma batch_runs_stops (os : OS) (st : State) :
  batch_runs os st = true ->
  target_missing os st || no_rules os st
  || (max_workers (scanner st) <=? 0)%Z = false.
Proof. unfold batch_runs. apply negb_true_iff. Qed.

Lemma discovery_rule_files (os : OS) (rule_files : list string) (st : State) :
  all_accepted os rule_files = true ->
  map rule_file (discovery_verdicts os rule_files st) = rule_files.
Proof. apply submit_all_rule_files. Qed.

(** X7: a batch that runs collects exactly one verdict per discovered
    rule (every worker having printed its line): the verdicts it adds are
    those of the rules, rearranged by the completion order, and their rule
    files are the discovered rule files. *)
Theorem run_scan_one_verdict_per_rule :
  forall (os : OS) (order : list nat) (st : State),
    batch_runs os st = true ->
    all_accepted os (snd (find_rule_files os st)) = true ->
    completion_order order (List.length (snd (find_rule_files os st))) ->
    Permutation (batch os order st)
                (discovery_verdicts os (snd (find_rule_files os st)) st)
    /\ Permutation (map rule_file (batch os order st))
                   (snd (find_rule_files os st))
    /\ List.length (batch os order st)
       = List.length (snd (find_rule_files os st)).
Proof.
  intros os order st Hruns Hall Horder.
  destruct (batch_once_per_rule os order st Hall
              (batch_runs_stops os st Hruns) Horder) as [Hperm Hlen].
  split; [exact Hperm|]. split; [|exact Hlen].
  apply (Permutation_trans (Permutation_map rule_file Hperm)).
  rewrite (discovery_rule_files os _ st Hall). apply Permutation_refl.
Qed.

Lemma example_order : completion_order [4; 0; 3; 1; 2] 5.
Proof.
  unfold completion_order. simpl.
  apply Permutation_sym.
  apply (Permutation_cons_app [4] [3; 1; 2] 0).
  apply (Permutation_cons_app [4; 3] [2] 1).
  apply (Permutation_cons_app [4; 3] [] 2).
  apply (Permutation_cons_app [4] [] 3).
  apply Permutation_refl.
Defined.

Lemma run_scan_one_verdict_per_rule_witness :
  Permutation
    (batch (Example.os Example.all_rules) [4; 0; 3; 1; 2]
           (Example.start "text"))
    (discovery_verdicts (Example.os Example.all_rules)
       ["rules/a.yar"; "rules/b.yara"; "rules/c.yar"; "rules/d.yar";
        "rules/e.yar"] (Example.start "text"))
  /\ Permutation
       (map rule_file
            (batch (Example.os Example.all_rules) [4; 0; 3; 1; 2]
                   (Example.start "text")))
       ["rules/a.yar"; "rules/b.yara"; "rules/c.yar"; "rules/d.yar";
        "rules/e.yar"]
  /\ List.length (batch (Example.os Example.all_rules) [4; 0; 3; 1; 2]
                        (Example.start "text")) = 5.
Proof.
  apply (run_scan_one_verdict_per_rule
           (Example.os Example.all_rules) [4; 0; 3; 1; 2]
           (Example.start "text")).
  - reflexivity.
  - reflexivity.
  - exact example_order.
Defined.

Lemma run_scan_configuration (os : OS) (elapsed : string)
    (order : list nat) (st : State) :
  configuration (scanner (fst (run_scan os elapsed order st)))
  = configuration (scanner st).
Proof.
  destruct (find_rule_files_frame os st) as [Hsc _].
  destruct (batch_runs os st) eqn:Hruns.
  - rewrite (run_scan_when_runs os elapsed order st Hruns).
    cbn [fst print scanner].
    destruct (gather_frame
                (as_completed order
                   (snd (submit_all os (snd (find_rule_files os st))
                           (fst (find_rule_files os st)))))
                (fst (submit_all os (snd (find_rule_files os st))
                        (fst (find_rule_files os st))))) as [Hc _].
    now rewrite Hc, submit_all_scanner, Hsc.
  - unfold batch_runs, target_missing, no_rules in Hruns.
    unfold run_scan.
    destruct (negb (Py.truthy_opt (target_file (scanner st)))
              || negb (isfile os (Py.fmt_opt (target_file (scanner st))))).
    + reflexivity.
    + cbn [orb] in Hruns.
      destruct (find_rule_files os st) as [st1 rule_files].
      cbn [snd fst] in *.
      destruct rule_files as [|rule rest]; [simpl; now rewrite Hsc|].
      cbn [orb negb] in Hruns.
      destruct (max_workers (scanner st) <=? 0)%Z;
        [simpl; now rewrite Hsc | discriminate].
Qed.







(** ** The counters of a report *)

Lemma matched_entries (l : list Verdict) :
  List.length (filter is_matched_entry (map verdict_json l))
  = List.length (filter matches l).
Proof.
  induction l as [|v l IH]; [reflexivity|].
  cbn [map filter]. unfold is_matched_entry at 1, verdict_json at 1.
  cbn [Json.get String.eqb Ascii.eqb Bool.eqb andb].
  destruct (matches v); cbn [List.length]; now rewrite IH.
Qed.

(** X9: in a JSON report the results array has [total_rules] entries, of
    which [matching_rules] have a true matches member, and the matching
    count is at most the total; the text header shows the same two
    numbers. *)
Theorem report_counters_consistent :
  forall (self : YaraScanner) (now : string),
    exists (total matching : nat) (entries : list Json.value),
      Json.get "total_rules" (output_members self now)
      = Some (Json.Int (Z.of_nat total))
      /\ Json.get "matching_rules" (output_members self now)
         = Some (Json.Int (Z.of_nat matching))
      /\ Json.get "results" (output_members self now)
         = Some (Json.Arr entries)
      /\ List.length entries = total
      /\ List.length (filter is_matched_entry entries) = matching
      /\ matching <= total
      /\ nth 5 (header_lines self now) EmptyString
         = "Total Rules: " ++ Py.str_of_nat total
      /\ nth 6 (header_lines self now) EmptyString
         = "Matching Rules: " ++ Py.str_of_nat matching.
Proof.
  intros self now.
  exists (List.length (results self)),
         (List.length (filter matches (results self))),
         (map verdict_json (results self)).
  repeat split.
  - apply length_map.
  - apply matched_entries.
  - apply filter_length_le.
Qed.



(** ** The program *)


Lemma rules_found_dir (os : OS) (st : State) :
  no_rules os st = false -> rules_dir_found os st = true.
Proof.
  unfold no_rules, rules_dir_found, find_rule_files.
  destruct (Py.truthy_opt (rules_dir (scanner st)));
    [|intro H; discriminate H].
  destruct (isdir os (Py.fmt_opt (rules_dir (scanner st))));
    [reflexivity | intro H; discriminate H].
Qed.

(** Where a batch stops when the worker pool refuses the worker count. *)
Lemma run_scan_refused (os : OS) (elapsed : string) (order : list nat)
    (st : State) :
  target_missing os st || no_rules os st = false ->
  (max_workers (scanner st) <=? 0)%Z = true ->
  run_scan os elapsed order st
  = (fst (find_rule_files os st),
     Raises (OtherException "max_workers must be greater than 0")).
Proof.
  unfold run_scan, target_missing, no_rules. intros Hpre Hworkers.
  destruct (negb (Py.truthy_opt (target_file (scanner st)))
            || negb (isfile os (Py.fmt_opt (target_file (scanner st)))));
    [discriminate|].
  cbn [orb] in Hpre.
  destruct (find_rule_files os st) as [st1 rule_files]. cbn [fst snd] in *.
  destruct rule_files as [|rule rest]; [discriminate|].
  now rewrite Hworkers.
Qed.

(** X12: with both preconditions met and a worker count below one, the
    batch ends in an exception before any engine call, nothing is
    collected, and [main] ends with status 1 without printing or writing a
    report. *)
Theorem worker_count_below_one :
  forall (os : OS) (args : Args) (elapsed now : string) (order : list nat),
    let st0 :=
      fresh_state (init (arg_yara_path args) (Some (arg_rules_dir args))
                        (Some (arg_target args)) (arg_format args)
                        (arg_workers args) (arg_timeout args)) in
    target_missing os st0 || no_rules os st0 = false ->
    (arg_workers args <= 0)%Z ->
    let final := fst (main os args elapsed now order) in
    snd (main os args elapsed now order)
    = Raises (OtherException "max_workers must be greater than 0")
    /\ exit_status (snd (main os args elapsed now order)) = 1%Z
    /\ invocations final = []
    /\ results (scanner final) = []
    /\ written final = []
    /\ console final
       = ["Found "
          ++ Py.str_of_nat (List.length (snd (find_rule_files os st0)))
          ++ " YARA rule files"].
Proof.
  intros os args elapsed now order st0 Hpre Hworkers final.
  apply Z.leb_le in Hworkers.
  assert (Hmain : main os args elapsed now order
                  = (fst (find_rule_files os st0),
                     Raises (OtherException
                               "max_workers must be greater than 0"))).
  { unfold main. fold st0.
    now rewrite (run_scan_refused os elapsed order st0 Hpre Hworkers). }
  unfold final. rewrite Hmain. cbn [fst snd].
  destruct (find_rule_files_frame os st0) as [Hsc [Hinv Hwr]].
  rewrite Hsc, Hinv, Hwr, find_rule_files_console.
  apply orb_false_iff in Hpre as [_ Hrules].
  apply rules_found_dir in Hrules. unfold rules_dir_found in Hrules.
  apply andb_true_iff in Hrules as [Ht Hd]. rewrite Ht, Hd.
  repeat split.
Qed.

Lemma worker_count_below_one_witness :
  let args := mkArgs "rules" "sample.bin" "yara64.exe" None "text" 0 20 in
  let final :=
    fst (main (Example.os Example.all_rules) args "0.00"
              "2024-05-01T10:00:00" []) in
  snd (main (Example.os Example.all_rules) args "0.00"
            "2024-05-01T10:00:00" [])
  = Raises (OtherException "max_workers must be greater than 0")
  /\ exit_status (snd (main (Example.os Example.all_rules) args "0.00"
                            "2024-05-01T10:00:00" [])) = 1%Z
  /\ invocations final = []
  /\ results (scanner final) = []
  /\ written final = []
  /\ console final = ["Found 5 YARA rule files"].
Proof.
  apply (worker_count_below_one
           (Example.os Example.all_rules)
           (mkArgs "rules" "sample.bin" "yara64.exe" None "text" 0 20)
           "0.00" "2024-05-01T10:00:00" []).
  - reflexivity.
  - simpl. lia.
Defined.

(** ** Writing the report *)



(** ** Batches on the same scanner *)

Lemma scan_with_rule_config (os : OS) (rule : string) (st st' : State) :
  configuration (scanner st) = configuration (scanner st') ->
  snd (scan_with_rule os rule st) = snd (scan_with_rule os rule st')
  /\ configuration (scanner (fst (scan_with_rule os rule st)))
     = configuration (scanner (fst (scan_with_rule os rule st'))).
Proof.
  intro Hc. rewrite !scan_with_rule_result, !scan_with_rule_scanner.
  split; [|exact Hc].
  destruct (worker_print os (scan_banner os rule)); [reflexivity|].
  unfold configuration in Hc. injection Hc as Hy _ Ht _ _ Hto.
  unfold engine_verdict, command, timeout_verdict, timeout_message.
  now rewrite Hy, Ht, Hto.
Qed.

Lemma submit_all_config (os : OS) (rule_files : list string)
    (st st' : State) :
  configuration (scanner st) = configuration (scanner st') ->
  snd (submit_all os rule_files st) = snd (submit_all os rule_files st').
Proof.
  revert st st'.
  induction rule_files as [|rule rest IH]; intros st st' Hc; simpl.
  - reflexivity.
  - destruct (scan_with_rule_config os rule st st' Hc) as [Hr Hnext].
    destruct (scan_with_rule os rule st) as [st1 r].
    destruct (scan_with_rule os rule st') as [st1' r'].
    cbn [fst snd] in Hr, Hnext. specialize (IH st1 st1' Hnext).
    destruct (submit_all os rest st1) as [st2 futures].
    destruct (submit_all os rest st1') as [st2' futures'].
    cbn [fst snd] in *. now rewrite Hr, IH.
Qed.

Lemma find_rule_files_config (os : OS) (st st' : State) :
  configuration (scanner st) = configuration (scanner st') ->
  snd (find_rule_files os st) = snd (find_rule_files os st').
Proof.
  intro Hc. unfold configuration in Hc. injection Hc as _ Hr _ _ _ _.
  unfold find_rule_files. rewrite Hr.
  destruct (negb _ || negb _); reflexivity.
Qed.

(** The verdicts of a batch depend on the scanner through its
    configuration only. *)
Lemma batch_config (os : OS) (order : list nat) (st st' : State) :
  configuration (scanner st) = configuration (scanner st') ->
  batch os order st = batch os order st'.
Proof.
  intro Hc. unfold batch, target_missing, no_rules.
  rewrite (find_rule_files_config os st st' Hc).
  pose proof (find_rule_files_frame os st) as [Hs _].
  pose proof (find_rule_files_frame os st') as [Hs' _].
  assert (Hc1 : configuration (scanner (fst (find_rule_files os st)))
                = configuration (scanner (fst (find_rule_files os st'))))
    by now rewrite Hs, Hs'.
  pose proof (find_rule_files_config os st st' Hc) as Hrules.
  destruct (find_rule_files os st) as [st1 rule_files].
  destruct (find_rule_files os st') as [st1' rule_files'].
  cbn [fst snd] in *. subst rule_files'.
  rewrite (submit_all_config os rule_files st1 st1' Hc1).
  unfold configuration in Hc. injection Hc as _ _ Ht _ Hw _.
  now rewrite Ht, Hw.
Qed.

(** X14: running the same batch a second time on the same scanner, with
    the same system and completion order, collects the same verdicts once
    more: every verdict of the batch is then in the results twice and the
    total shown doubles (for a scanner that started empty). *)
Theorem second_run_repeats_verdicts :
  forall (os : OS) (elapsed1 elapsed2 now : string) (order : list nat)
         (st : State),
    let st1 := fst (run_scan os elapsed1 order st) in
    let st2 := fst (run_scan os elapsed2 order st1) in
    batch os order st1 = batch os order st
    /\ results (scanner st2)
       = (results (scanner st) ++ batch os order st
          ++ batch os order st)%list
    /\ nth 5 (header_lines (scanner st2) now) EmptyString
       = "Total Rules: "
         ++ Py.str_of_nat (List.length (results (scanner st))
                           + 2 * List.length (batch os order st)).
Proof.
  intros os elapsed1 elapsed2 now order st st1 st2.
  assert (Hb : batch os order st1 = batch os order st).
  { apply batch_config. unfold st1. apply run_scan_configuration. }
  assert (Hres : results (scanner st2)
                 = (results (scanner st) ++ batch os order st
                    ++ batch os order st)%list).
  { unfold st2. rewrite run_scan_results, Hb. unfold st1.
    now rewrite run_scan_results, <- app_assoc. }
  split; [exact Hb|]. split; [exact Hres|].
  cbn [header_lines nth]. rewrite Hres, !length_app.
  do 2 f_equal. lia.
Qed.

(** ** What the JSON text keeps *)

Lemma string_app_assoc (a b c : string) : (a ++ b) ++ c = a ++ (b ++ c).
Proof. induction a as [|x a IH]; simpl; [reflexivity | now rewrite IH]. Qed.

Lemma string_app_cancel (a x y : string) : a ++ x = a ++ y -> x = y.
Proof.
  induction a as [|c a IH]; simpl; intro H; [exact H|].
  injection H as H. now apply IH.
Qed.

(** An escaped character read back is the character. *)
Lemma read_char_escape (c : ascii) (r : string) :
  read_char (Json.escape_char c ++ r) = Some (c, r).
Proof.
  destruct c as [[] [] [] [] [] [] [] []]; reflexivity.
Qed.

(** No escape begins with a quote. *)
Lemma escape_char_head (c : ascii) :
  exists (h : ascii) (t : string),
    Json.escape_char c = String h t /\ h <> ascii_of_nat 34.
Proof.
  destruct c as [[] [] [] [] [] [] [] []];
    eexists; eexists; (split; [reflexivity | discriminate]).
Qed.

(** An escaped string ends at the first quote. *)
Lemma escape_delimited (a b r r' : string) :
  Json.escape a ++ Json.dquote ++ r = Json.escape b ++ Json.dquote ++ r' ->
  a = b /\ r = r'.
Proof.
  revert b. induction a as [|c a IH]; intros [|d b] H.
  - split; [reflexivity|]. now apply (string_app_cancel Json.dquote).
  - exfalso. cbn [Json.escape] in H. rewrite string_app_assoc in H.
    destruct (escape_char_head d) as [h [t [Hd Hh]]]. rewrite Hd in H.
    simpl in H. injection H as Hq _. now elim Hh.
  - exfalso. cbn [Json.escape] in H. rewrite string_app_assoc in H.
    destruct (escape_char_head c) as [h [t [Hc Hh]]]. rewrite Hc in H.
    simpl in H. injection H as Hq _. now elim Hh.
  - cbn [Json.escape] in H. rewrite !string_app_assoc in H.
    apply (f_equal read_char) in H. rewrite !read_char_escape in H.
    injection H as Hcd H. subst d.
    destruct (IH b H) as [Hab Hr]. now subst.
Qed.

Lemma encode_str_delimited (a b r r' : string) :
  Json.encode_str a ++ r = Json.encode_str b ++ r' -> a = b /\ r = r'.
Proof.
  unfold Json.encode_str. rewrite !string_app_assoc. intro H.
  apply string_app_cancel in H. now apply escape_delimited.
Qed.

Lemma split_at_char (c : ascii) (s s' r r' : string) :
  Forall (fun x => x <> c) (list_ascii_of_string s) ->
  Forall (fun x => x <> c) (list_ascii_of_string s') ->
  s ++ String c r = s' ++ String c r' -> s = s' /\ r = r'.
Proof.
  revert s'. induction s as [|x s IH]; intros [|y s'] Hs Hs' H; simpl in *.
  - injection H as H. now split.
  - injection H as Hc _. inversion Hs' as [|? ? Hy _]. now elim Hy.
  - injection H as Hc _. inversion Hs as [|? ? Hx _]. now elim Hx.
  - injection H as Hxy H. inversion Hs; inversion Hs'; subst.
    destruct (IH s') as [E1 E2]; try assumption. now subst.
Qed.

Lemma string_of_uint_no_comma (d : Decimal.uint) :
  Forall (fun x => x <> ","%char)
         (list_ascii_of_string (NilEmpty.string_of_uint d)).
Proof. induction d; simpl; constructor; (discriminate || assumption). Qed.

Lemma str_of_Z_no_comma (z : Z) :
  Forall (fun x => x <> ","%char) (list_ascii_of_string (Py.str_of_Z z)).
Proof.
  unfold Py.str_of_Z, NilZero.string_of_int, NilZero.string_of_uint.
  destruct (Z.to_int z) as [d|d]; destruct d; simpl;
    repeat constructor; try discriminate; apply string_of_uint_no_comma.
Qed.

(** [str] of an [int] tells the integers apart. *)
Lemma str_of_Z_inj (a b : Z) : Py.str_of_Z a = Py.str_of_Z b -> a = b.
Proof.
  unfold Py.str_of_Z. intro H.
  apply (f_equal NilZero.int_of_string) in H.
  assert (Hn : forall z : Z, Z.to_int z <> Decimal.Pos Decimal.Nil
                             /\ Z.to_int z <> Decimal.Neg Decimal.Nil).
  { intro z. destruct z; simpl; split; try discriminate.
    - intro E. injection E as E. now apply Unsigned.to_uint_nonnil in E.
    - intro E. injection E as E. now apply Unsigned.to_uint_nonnil in E. }
  rewrite !NilZero.isi in H by apply Hn.
  injection H as H. now apply DecimalZ.to_int_inj.
Qed.

Lemma str_of_Z_delimited (a b : Z) (r r' : string) :
  Py.str_of_Z a ++ "," ++ r = Py.str_of_Z b ++ "," ++ r' ->
  a = b /\ r = r'.
Proof.
  intro H. change ("," ++ r) with (String "," r) in H.
  change ("," ++ r') with (String "," r') in H.
  apply split_at_char in H; try apply str_of_Z_no_comma.
  destruct H as [H Hr]. split; [now apply str_of_Z_inj | exact Hr].
Qed.

Lemma bool_text_delimited (b b' : bool) (r r' : string) :
  (if b then "true" else "false") ++ r
  = (if b' then "true" else "false") ++ r' ->
  b = b' /\ r = r'.
Proof.
  destruct b, b'; simpl; intro H; try discriminate H.
  - injection H as H. now split.
  - injection H as H. now split.
Qed.

Lemma opt_delimited (level : nat) (o o' : option string) (r r' : string) :
  Json.encode level (opt_json o) ++ r = Json.encode level (opt_json o') ++ r' ->
  o = o' /\ r = r'.
Proof.
  destruct o as [a|], o' as [b|]; cbn [opt_json Json.encode]; intro H.
  - apply encode_str_delimited in H as [-> ->]. now split.
  - exfalso. unfold Json.encode_str, Json.dquote in H. simpl in H.
    discriminate H.
  - exfalso. unfold Json.encode_str, Json.dquote in H. simpl in H.
    discriminate H.
  - simpl in H. injection H as H. now split.
Qed.

(** The text of one entry of the results array gives the verdict back,
    whatever follows it. *)
Lemma entry_delimited (level : nat) (v v' : Verdict) (r r' : string) :
  Json.encode level (verdict_json v) ++ r
  = Json.encode level (verdict_json v') ++ r' ->
  v = v' /\ r = r'.
Proof.
  destruct v as [f1 n1 o1 e1 c1 m1 x1], v' as [f2 n2 o2 e2 c2 m2 x2].
  unfold verdict_json.
  cbn [Json.encode map Py.join String.concat fst snd
       rule_file rule_name stdout stderr return_code matches error].
  rewrite !string_app_assoc. intro H.
  repeat apply string_app_cancel in H.
  apply encode_str_delimited in H as [<- H].
  repeat apply string_app_cancel in H.
  apply encode_str_delimited in H as [<- H].
  repeat apply string_app_cancel in H.
  apply encode_str_delimited in H as [<- H].
  repeat apply string_app_cancel in H.
  apply encode_str_delimited in H as [<- H].
  repeat apply string_app_cancel in H.
  apply str_of_Z_delimited in H as [<- H].
  repeat apply string_app_cancel in H.
  apply bool_text_delimited in H as [<- H].
  repeat apply string_app_cancel in H.
  apply opt_delimited in H as [<- H].
  repeat apply string_app_cancel in H.
  now split.
Qed.

Lemma newline_not_comma (x y : string) : newline ++ x <> "," ++ y.
Proof. unfold newline. simpl. intro H. injection H. intros. discriminate. Qed.

Lemma join_rest (level : nat) (sep close : string) (v : Verdict)
    (l : list Verdict) (r : string) :
  Py.join sep (map (fun x => Json.encode level (verdict_json x)) (v :: l))
  ++ close ++ r
  = Json.encode level (verdict_json v)
    ++ fold_right
         (fun x acc => sep ++ Json.encode level (verdict_json x) ++ acc)
         (close ++ r) l.
Proof.
  unfold Py.join. revert v. induction l as [|w l IH]; intro v.
  - reflexivity.
  - change (String.concat sep
              (map (fun x => Json.encode level (verdict_json x))
                   (v :: w :: l)))
      with (Json.encode level (verdict_json v) ++ sep
            ++ String.concat sep
                 (map (fun x => Json.encode level (verdict_json x))
                      (w :: l))).
    rewrite !string_app_assoc, IH. reflexivity.
Qed.

Lemma rest_text_inj (level : nat) (sep close : string)
    (l l' : list Verdict) (r r' : string) :
  (exists s : string, sep = "," ++ s) ->
  (exists s : string, close = newline ++ s) ->
  fold_right (fun x acc => sep ++ Json.encode level (verdict_json x) ++ acc)
             (close ++ r) l
  = fold_right (fun x acc => sep ++ Json.encode level (verdict_json x) ++ acc)
               (close ++ r') l' ->
  l = l' /\ r = r'.
Proof.
  intros [s Hs] [c Hc].
  revert l'. induction l as [|v l IH]; intros [|v' l'] H; cbn in H.
  - split; [reflexivity|]. now apply (string_app_cancel close).
  - exfalso. rewrite Hc, Hs, !string_app_assoc in H.
    now apply newline_not_comma in H.
  - exfalso. rewrite Hc, Hs, !string_app_assoc in H. symmetry in H.
    now apply newline_not_comma in H.
  - apply string_app_cancel in H. apply entry_delimited in H as [<- H].
    destruct (IH l' H) as [<- <-]. now split.
Qed.

(** The text of the results array gives the list of verdicts back. *)
Lemma results_delimited (level : nat) (l l' : list Verdict)
    (r r' : string) :
  Json.encode level (Json.Arr (map verdict_json l)) ++ r
  = Json.encode level (Json.Arr (map verdict_json l')) ++ r' ->
  l = l' /\ r = r'.
Proof.
  destruct l as [|v l], l' as [|v' l'].
  - simpl. intro H. injection H as H. now split.
  - cbn [map Json.encode]. rewrite !string_app_assoc. intro H. exfalso.
    unfold newline in H. simpl in H. discriminate H.
  - cbn [map Json.encode]. rewrite !string_app_assoc. intro H. exfalso.
    unfold newline in H. simpl in H. discriminate H.
  - cbn [map Json.encode]. rewrite !map_map, !string_app_assoc.
    intro H. repeat apply string_app_cancel in H.
    change (Json.encode (S level) (verdict_json v)
            :: map (fun x => Json.encode (S level) (verdict_json x)) l)
      with (map (fun x => Json.encode (S level) (verdict_json x)) (v :: l))
      in H.
    change (Json.encode (S level) (verdict_json v')
            :: map (fun x => Json.encode (S level) (verdict_json x)) l')
      with (map (fun x => Json.encode (S level) (verdict_json x)) (v' :: l'))
      in H.
    rewrite !join_rest in H.
    apply entry_delimited in H as [<- H].
    apply rest_text_inj in H as [<- H].
    + repeat apply string_app_cancel in H. now split.
    + now exists (newline ++ Json.spaces (2 * S level)).
    + now exists EmptyString.
Qed.

(** X15: the JSON report keeps what it was made from: two reports with the
    same text show the same scan time, target and rules directory and hold
    the same verdicts, field by field and in the same order. No two
    different lists of collected verdicts are rendered alike. *)
Theorem json_report_determines_verdicts :
  forall (self self' : YaraScanner) (now now' : string),
    output_format self = "json" ->
    output_format self' = "json" ->
    rendering self now = rendering self' now' ->
    results self = results self'
    /\ now = now'
    /\ target_file self = target_file self'
    /\ rules_dir self = rules_dir self'.
Proof.
  intros self self' now now' Hf Hf'. unfold rendering. rewrite Hf, Hf'.
  cbn [String.eqb Ascii.eqb Bool.eqb andb].
  unfold Json.dumps, output_data, output_members.
  cbn [Json.encode map Py.join String.concat fst snd].
  rewrite !string_app_assoc. intro H.
  repeat apply string_app_cancel in H.
  apply encode_str_delimited in H as [Hnow H].
  repeat apply string_app_cancel in H.
  apply opt_delimited in H as [Ht H].
  repeat apply string_app_cancel in H.
  apply opt_delimited in H as [Hr H].
  repeat apply string_app_cancel in H.
  apply str_of_Z_delimited in H as [_ H].
  repeat apply string_app_cancel in H.
  apply str_of_Z_delimited in H as [_ H].
  repeat apply string_app_cancel in H.
  apply results_delimited in H as [Hres _].
  now repeat split.
Qed.

(** Two scanners that differ in executable, worker count and timeout, with
    the same collected verdicts: their reports are the same text. *)
Lemma json_report_determines_verdicts_witness :
  results (mkScanner "yara64.exe" (Some "rules") (Some "sample.bin") "json"
                     4 30 [Example.verdict_a; Example.verdict_c])
  = results (mkScanner "yara" (Some "rules") (Some "sample.bin") "json"
                       8 20 [Example.verdict_a; Example.verdict_c])
  /\ "2024-05-01T10:00:00" = "2024-05-01T10:00:00"
  /\ Some "sample.bin" = Some "sample.bin"
  /\ Some "rules" = Some "rules".
Proof.
  apply (json_report_determines_verdicts
           (mkScanner "yara64.exe" (Some "rules") (Some "sample.bin") "json"
                      4 30 [Example.verdict_a; Example.verdict_c])
           (mkScanner "yara" (Some "rules") (Some "sample.bin") "json"
                      8 20 [Example.verdict_a; Example.verdict_c])
           "2024-05-01T10:00:00" "2024-05-01T10:00:00").
  - reflexivity.
  - reflexivity.
  - reflexivity.
Defined.

(** ** The JSON text *)

Lemma plain_ascii_app (a b : string) :
  plain_ascii (a ++ b) = plain_ascii a && plain_ascii b.
Proof.
  unfold plain_ascii. now rewrite list_ascii_app, forallb_app.
Qed.

Lemma escape_char_plain (c : ascii) :
  plain_ascii (Json.escape_char c) = true.
Proof.
  destruct c as [[] [] [] [] [] [] [] []]; vm_compute; reflexivity.
Qed.

Lemma escape_plain (s : string) : plain_ascii (Json.escape s) = true.
Proof.
  induction s as [|c s IH]; [reflexivity|].
  cbn [Json.escape]. now rewrite plain_ascii_app, escape_char_plain, IH.
Qed.

Lemma encode_str_plain (s : string) : plain_ascii (Json.encode_str s) = true.
Proof.
  unfold Json.encode_str.
  now rewrite !plain_ascii_app, escape_plain.
Qed.

Lemma string_of_uint_plain (d : Decimal.uint) :
  plain_ascii (NilEmpty.string_of_uint d) = true.
Proof. induction d; simpl; auto. Qed.

Lemma str_of_Z_plain (z : Z) : plain_ascii (Py.str_of_Z z) = true.
Proof.
  unfold Py.str_of_Z, NilZero.string_of_int, NilZero.string_of_uint.
  destruct (Z.to_int z) as [d|d]; destruct d;
    try reflexivity; apply string_of_uint_plain.
Qed.

Lemma spaces_plain (n : nat) : plain_ascii (Json.spaces n) = true.
Proof. induction n as [|n IH]; [reflexivity | exact IH]. Qed.

Lemma join_plain (sep : string) (l : list string) :
  plain_ascii sep = true ->
  Forall (fun s => plain_ascii s = true) l ->
  plain_ascii (Py.join sep l) = true.
Proof.
  intros Hsep Hall. unfold Py.join.
  induction Hall as [|s l Hs Hl IH]; [reflexivity|].
  destruct l as [|s' l]; [exact Hs|].
  change (String.concat sep (s :: s' :: l))
    with (s ++ sep ++ String.concat sep (s' :: l)).
  now rewrite !plain_ascii_app, Hs, Hsep, IH.
Qed.

(** Whatever the value, its JSON text is plain ASCII. *)
Lemma encode_plain :
  forall (v : Json.value) (level : nat),
    plain_ascii (Json.encode level v) = true.
Proof.
  fix IH 1. intros [ | b | z | s | items | members] level.
  - reflexivity.
  - destruct b; reflexivity.
  - apply str_of_Z_plain.
  - apply encode_str_plain.
  - assert (Hall : Forall (fun s => plain_ascii s = true)
                          (map (Json.encode (S level)) items)).
    { refine ((fix all (l : list Json.value) :
                 Forall (fun s => plain_ascii s = true)
                        (map (Json.encode (S level)) l) :=
                 match l with
                 | [] => Forall_nil _
                 | x :: l' => Forall_cons _ (IH x (S level)) (all l')
                 end) items). }
    destruct items as [|x xs]; [reflexivity|].
    cbn [Json.encode].
    rewrite !plain_ascii_app, spaces_plain, spaces_plain.
    rewrite join_plain;
      [reflexivity | now rewrite !plain_ascii_app, spaces_plain | exact Hall].
  - assert (Hall : Forall (fun s => plain_ascii s = true)
                          (map (fun m : string * Json.value =>
                                  Json.encode_str (fst m) ++ ": "
                                  ++ Json.encode (S level) (snd m))
                               members)).
    { refine ((fix all (l : list (string * Json.value)) :
                 Forall (fun s => plain_ascii s = true)
                        (map (fun m : string * Json.value =>
                                Json.encode_str (fst m) ++ ": "
                                ++ Json.encode (S level) (snd m)) l) :=
                 match l with
                 | [] => Forall_nil _
                 | m :: l' => Forall_cons _ _ (all l')
                 end) members).
      rewrite !plain_ascii_app, encode_str_plain.
      destruct m as [k x]. cbn [snd]. now rewrite (IH x (S level)). }
    destruct members as [|m ms]; [reflexivity|].
    cbn [Json.encode].
    rewrite !plain_ascii_app, spaces_plain, spaces_plain.
    rewrite join_plain;
      [reflexivity | now rewrite !plain_ascii_app, spaces_plain | exact Hall].
Qed.

(** X16: the JSON rendering of a report is plain ASCII (printable
    characters and line feeds), whatever the engine wrote and whatever the
    paths are: every other character is written as an escape. *)
Theorem json_rendering_is_ascii :
  forall (self : YaraScanner) (now : string),
    output_format self = "json" ->
    plain_ascii (rendering self now) = true.
Proof.
  intros self now Hformat. unfold rendering. rewrite Hformat.
  cbn [String.eqb Ascii.eqb Bool.eqb andb]. apply encode_plain.
Qed.

Lemma json_rendering_is_ascii_witness :
  plain_ascii
    (rendering
       (scanner (fst (run_scan (Example.os Example.all_rules) "0.42"
                               [4; 0; 3; 1; 2] (Example.start "json"))))
       "2024-05-01T10:00:00")
  = true.
Proof.
  apply (json_rendering_is_ascii
           (scanner (fst (run_scan (Example.os Example.all_rules) "0.42"
                                   [4; 0; 3; 1; 2] (Example.start "json"))))
           "2024-05-01T10:00:00").
  reflexivity.
Defined.

(** ** A run from the command line *)



